(** * The cortex.cpp model client of the model extension

    A shallow embedding of [extensions/model-extension/src/cortex.ts]:
    the JSON values the client receives, the model normalizer
    [transformModel], the promise outcomes of [getModels] and [pullModel],
    and the message handler that [subscribeToEvents] installs on the
    socket; then the other operations of the client with the requests
    they send, and the [ChatBody] component of
    [web/screens/Chat/ChatBody/index.tsx] over the message types of the
    core package.

    Conventions.
    - A JS number is an IEEE 754 binary64 value: [float], with the
      kernel's [+], [/] and [<?].
    - A JS object is a finite map from property names to values; an
      absent property reads as [undefined].  Property order is not
      recorded: no statement below depends on it.
    - A JS string is a [string]; its characters stand for code units.
    - A promise is represented by the way it settles ([Completion]). *)

From Stdlib Require Import Floats.
From stdpp Require Import gmap strings list fin_maps pretty.

Set Default Proof Using "Type".
#[local] Set Warnings "-register-all".

(** ** JSON values *)

(** The values that JSON text parses to, and [JArrProps l props]: an
    array with elements [l] that also carries the named properties
    [props].  No JSON text parses to the latter; it is what an array
    becomes when properties are assigned on it. *)
Inductive JValue : Type :=
| JUndefined
| JNull
| JBool (b : bool)
| JNum (x : float)
| JStr (s : string)
| JArr (l : list JValue)
| JObj (m : gmap string JValue)
| JArrProps (l : list JValue) (props : gmap string JValue).

(** [typeof v] *)
Definition typeof (v : JValue) : string :=
  match v with
  | JUndefined => "undefined"
  | JNull => "object"
  | JBool _ => "boolean"
  | JNum _ => "number"
  | JStr _ => "string"
  | JArr _ => "object"
  | JObj _ => "object"
  | JArrProps _ _ => "object"
  end.

(** The values on which [??] and [?.] fall through. *)
Definition nullish (v : JValue) : bool :=
  match v with
  | JUndefined | JNull => true
  | _ => false
  end.

(** [a ?? b] *)
Definition coalesce (a b : JValue) : JValue := if nullish a then b else a.

(** Reading an own property of an object: [undefined] when absent. *)
Definition get (k : string) (m : gmap string JValue) : JValue :=
  default JUndefined (m !! k).

(** The index properties ["0"], ["1"], ... of an array-like value. *)
Definition indexed (l : list JValue) : gmap string JValue :=
  list_to_map (imap (λ i v, (pretty i, v)) l).

Definition chars (s : string) : list JValue :=
  (λ c, JStr (String c EmptyString)) <$> String.list_ascii_of_string s.

(** The own enumerable properties copied by [{...v}]: those of an
    object, the elements of an array (with its named properties, which
    are no indices, when it has some), the characters of a string, and
    nothing for [undefined], [null], booleans and numbers. *)
Definition spread (v : JValue) : gmap string JValue :=
  match v with
  | JObj m => m
  | JArr l => indexed l
  | JArrProps l props => props ∪ indexed l
  | JStr s => indexed (chars s)
  | _ => ∅
  end.

(** [v.k] for a value [v] that is neither [null] nor [undefined].
    Inherited members (methods, [length]) are not represented; the
    client only reads [parameters], [settings], [metadata], [size] and
    [data], which no prototype defines. *)
Definition prop (k : string) (v : JValue) : JValue := get k (spread v).

(** [v?.k] *)
Definition opt_prop (k : string) (v : JValue) : JValue :=
  if nullish v then JUndefined else prop k v.

(** ** How a promise settles *)

(** The body of an HTTP response, as [Response.json()] will read it:
    text that parses to a JSON value, or text that does not parse. *)
Inductive Body : Type :=
| Json (v : JValue)
| NotJson.

(** An error the transport rejects with.  An error raised for a
    non-2xx status carries the response; a network failure, a timeout
    or a body that fails to parse carries none. *)
Record TransportError : Type := {
  name : string;
  response : option Body;
}.

(** What a promise can reject with. *)
Inductive Thrown : Type :=
| TypeError
| SyntaxError
| Transport (e : TransportError)
| Value (v : JValue).

Inductive Completion (A : Type) : Type :=
| Fulfilled (a : A)
| Rejected (t : Thrown).

Arguments Fulfilled {A} a.
Arguments Rejected {A} t.

(** [p.then(f)], where [f] may throw: a rejection of [p] passes
    through, an exception of [f] rejects the result. *)
Definition andThen {A B : Type} (p : Completion A) (f : A → Completion B)
  : Completion B :=
  match p with
  | Fulfilled a => f a
  | Rejected t => Rejected t
  end.

(** [xs.map(f)], where [f] may throw: the first exception ends the
    traversal. *)
Fixpoint mapThrowing {A B : Type} (f : A → Completion B) (xs : list A)
  : Completion (list B) :=
  match xs with
  | [] => Fulfilled []
  | x :: xs' =>
      andThen (f x) (λ y, andThen (mapThrowing f xs') (λ ys, Fulfilled (y :: ys)))
  end.

(** [this.queue.add(task)] settles as the task does; when the task
    runs is not part of this model. *)
Definition queue_add {A : Type} (task : Completion A) : Completion A := task.

(** The promise of [ky.get(..).json()] and the like: the parsed body,
    or a transport error. *)
Definition request (r : TransportError + JValue) : Completion JValue :=
  match r with
  | inr v => Fulfilled v
  | inl e => Rejected (Transport e)
  end.

(** ** The model normalizer *)

Section Normalizer.

(** [extractInferenceParams] and [extractModelLoadParams] are imported
    from the core package; the normalizer uses the objects they return
    and nothing else about them.  They are taken as functions of the
    own enumerable properties of the value they are given. *)
Variable extractInferenceParams : gmap string JValue → gmap string JValue.
Variable extractModelLoadParams : gmap string JValue → gmap string JValue.

(** [{ ...defaults, ...explicit }]: a later spread overwrites an earlier
    one, so the explicit properties are on the left of the left-biased
    union. *)
Definition merged (defaults : gmap string JValue) (explicit : JValue)
  : JValue :=
  JObj (spread explicit ∪ defaults).

(** The metadata object built when the record has none.  Within this
    branch [model.metadata] is nullish, so [model.metadata?.size] is
    [undefined]. *)
Definition defaultMetadata (model : gmap string JValue) : JValue :=
  JObj (<["tags" := JArr []]>
        (<["size" := coalesce
                       (coalesce (get "size" model)
                                 (opt_prop "size" (get "metadata" model)))
                       (JNum 0)]> ∅)).

(** [transformModel(model)], on the content of the record: the three
    assignments in source order, each reading the record as the
    previous one left it. *)
Definition transformModel (model : gmap string JValue)
  : gmap string JValue :=
  let model1 :=
    <["parameters" :=
        merged (extractInferenceParams model) (get "parameters" model)]>
      model in
  let model2 :=
    <["settings" :=
        merged (extractModelLoadParams model1) (get "settings" model1)]>
      model1 in
  <["metadata" :=
      if nullish (get "metadata" model2)
      then defaultMetadata model2
      else get "metadata" model2]> model2.

(** The record is updated in place and the same reference is returned.
    Records live in a store; [None] stands for a reference that the
    store does not hold, which a running program cannot produce. *)
Definition transformModel_ref (l : nat)
  (h : gmap nat (gmap string JValue))
  : option (nat * gmap nat (gmap string JValue)) :=
  model ← h !! l;
  Some (l, <[l := transformModel model]> h).

(** The three assignments on an array with elements [l] and named
    properties [props]: the array keeps its elements and takes the
    three fields, computed from its own properties as for a record. *)
Definition transformModel_array (l : list JValue)
  (props : gmap string JValue) : JValue :=
  let model' := transformModel (props ∪ indexed l) in
  JArrProps l
    (<["parameters" := get "parameters" model']>
     (<["settings" := get "settings" model']>
     (<["metadata" := get "metadata" model']> props))).

(** [transformModel] applied to an arbitrary value.  There is no type
    test in the source: an object and an array take the three
    assignments; assigning a property on [null], [undefined] or a
    primitive throws in strict mode. *)
Definition transformModel_value (v : JValue) : Completion JValue :=
  match v with
  | JObj m => Fulfilled (JObj (transformModel m))
  | JArr l => Fulfilled (transformModel_array l ∅)
  | JArrProps l props => Fulfilled (transformModel_array l props)
  | _ => Rejected TypeError
  end.

(** [e.data]: a property read, which throws on [null] and
    [undefined]. *)
Definition data_of (e : JValue) : Completion JValue :=
  if nullish e then Rejected TypeError else Fulfilled (prop "data" e).

(** [d.map(f)]: only an array has a [map] method among these
    values. *)
Definition map_of (f : JValue → Completion JValue) (d : JValue)
  : Completion (list JValue) :=
  match d with
  | JArr l => mapThrowing f l
  | JArrProps l _ => mapThrowing f l
  | _ => Rejected TypeError
  end.

(** [getModels()], given how the GET request settles. *)
Definition getModels (r : TransportError + JValue)
  : Completion (list JValue) :=
  andThen (queue_add (request r))
    (λ e, if String.eqb (typeof e) "object"
          then andThen (data_of e) (map_of transformModel_value)
          else Fulfilled []).

End Normalizer.

(** An extractor that keeps the top-level fields whose name is in
    [keys]: a concrete instance of the two extractors, used in the
    examples. *)
Definition pick (keys : list string) (model : gmap string JValue)
  : gmap string JValue :=
  filter (λ kv, kv.1 ∈ keys) model.

Definition sampleInferenceKeys : list string :=
  ["temperature"; "top_p"; "max_tokens"; "stream"].

Definition sampleLoadKeys : list string :=
  ["ctx_len"; "ngl"; "prompt_template"].

(** The fields the normalizer writes. *)
Definition normalizedFields : list string :=
  ["parameters"; "settings"; "metadata"].

(** An extractor that does not read the fields the normalizer writes. *)
Definition ignores_normalized
  (extract : gmap string JValue → gmap string JValue) : Prop :=
  ∀ model k v, k ∈ normalizedFields → extract (<[k := v]> model) = extract model.

(** ** pullModel *)

(** [await e.response?.json()] *)
Definition response_json (e : TransportError) : Completion JValue :=
  match response e with
  | None => Fulfilled JUndefined
  | Some (Json v) => Fulfilled v
  | Some NotJson => Rejected SyntaxError
  end.

(** The handler [async (e) => { throw (await e.response?.json()) ?? e }] *)
Definition pull_catch (e : TransportError) : Completion JValue :=
  andThen (response_json e)
    (λ body, Rejected (if nullish body then Transport e else Value body)).

(** [pullModel(model, id, name)], given how the POST request settles.
    The final [then()] has no callback and passes the value on. *)
Definition pullModel (r : TransportError + JValue) : Completion JValue :=
  queue_add
    (match r with
     | inr v => Fulfilled v
     | inl e => pull_catch e
     end).

(** ** The socket message handler *)

Module Bridge.

(** A decoded frame: [{type, task: {id, items: [{downloadedBytes, bytes}]}}].
    Frames are taken in this shape; the handler does not validate
    them. *)
Record Item : Type := {
  downloadedBytes : float;
  bytes : float;
}.

Record Task : Type := {
  id : string;
  items : list Item;
}.

Record Frame : Type := {
  type : string;
  task : Task;
}.

Record Size : Type := {
  transferred : float;
  total : float;
}.

Record Progress : Type := {
  modelId : string;
  percent : float;
  size : Size;
}.

(** The members of [enum DownloadTypes] with their values.  A string
    enum has no reverse mapping: the object is indexed by member
    name. *)
Definition DownloadTypes : gmap string string :=
  list_to_map
    [ ("DownloadUpdated", "onFileDownloadUpdate");
      ("DownloadError", "onFileDownloadError");
      ("DownloadSuccess", "onFileDownloadSuccess");
      ("DownloadStopped", "onFileDownloadStopped");
      ("DownloadStarted", "onFileDownloadStarted") ].

(** [DownloadTypes.DownloadSuccess] *)
Definition DownloadSuccess : string := "onFileDownloadSuccess".

(** The property names every plain object inherits. *)
Definition inheritedMembers : list string :=
  [ "constructor"; "hasOwnProperty"; "isPrototypeOf";
    "propertyIsEnumerable"; "toLocaleString"; "toString"; "valueOf";
    "__proto__"; "__defineGetter__"; "__defineSetter__";
    "__lookupGetter__"; "__lookupSetter__" ].

(** The first argument of [events.emit]. *)
Inductive EventName : Type :=
| Named (s : string)
| Undefined
| Inherited (k : string)
| OnModelsUpdate.

(** [DownloadTypes[t]] *)
Definition lookupType (t : string) : EventName :=
  match DownloadTypes !! t with
  | Some v => Named v
  | None => if bool_decide (t ∈ inheritedMembers) then Inherited t else Undefined
  end.

Inductive Payload : Type :=
| ProgressPayload (p : Progress)
| EmptyPayload.

(** What the handler does, in program order: a call of [events.emit],
    or a call of [setTimeout] whose callback emits. *)
Inductive Effect : Type :=
| Emit (event : EventName) (payload : Payload)
| SetTimeout (callback : list (EventName * Payload)) (delay : Z).

Definition sumDownloaded (its : list Item) : float :=
  fold_left (λ acc cur, (acc + downloadedBytes cur)%float) its 0%float.

Definition sumBytes (its : list Item) : float :=
  fold_left (λ acc cur, (acc + bytes cur)%float) its 0%float.

Definition progressOf (data : Frame) : Progress :=
  let transferred := sumDownloaded (items (task data)) in
  let total := sumBytes (items (task data)) in
  let percent := if (0 <? total)%float then (transferred / total)%float else 0%float in
  {| modelId := id (task data);
     percent := percent;
     size := {| transferred := transferred; total := total |} |}.

(** The listener installed by [subscribeToEvents], applied to one
    decoded frame. *)
Definition onMessage (data : Frame) : list Effect :=
  Emit (lookupType (type data)) (ProgressPayload (progressOf data))
  :: (if String.eqb (type data) DownloadSuccess
      then [SetTimeout [(OnModelsUpdate, EmptyPayload)] 500]
      else []).

(** The events a list of effects leads to, each with the delay after
    which it is emitted: at once for [Emit], after the timer's delay for
    a callback. *)
Definition emitted (e : Effect) : list (Z * EventName * Payload) :=
  match e with
  | Emit ev p => [(0%Z, ev, p)]
  | SetTimeout cb d => (λ c, (d, c.1, c.2)) <$> cb
  end.

Definition timeline (es : list Effect) : list (Z * EventName * Payload) :=
  es ≫= emitted.

End Bridge.

(** ** The other operations of the client *)

(** A promise of the transport, whatever it resolves to. *)
Definition settles {R : Type} (r : TransportError + R) : Completion R :=
  match r with
  | inr v => Fulfilled v
  | inl e => Rejected (Transport e)
  end.

(** [p.then()], without a callback: the promise is passed on. *)
Definition then_ {A : Type} (p : Completion A) : Completion A := p.

(** [p.catch(h)] *)
Definition catchWith {A : Type} (p : Completion A) (h : Thrown → Completion A)
  : Completion A :=
  match p with
  | Fulfilled a => Fulfilled a
  | Rejected t => h t
  end.

Section Operations.

Variable extractInferenceParams : gmap string JValue → gmap string JValue.
Variable extractModelLoadParams : gmap string JValue → gmap string JValue.

(** [getModel(model)], given how the GET request settles. *)
Definition getModel (r : TransportError + JValue) : Completion JValue :=
  queue_add
    (andThen (request r)
       (transformModel_value extractInferenceParams extractModelLoadParams)).

End Operations.

(** [deleteModel], [updateModel] and [cancelModelPull], given how
    their request settles: [ky.<verb>(..).json().then()]. *)
Definition deleteModel (r : TransportError + JValue) : Completion JValue :=
  queue_add (then_ (request r)).

Definition updateModel (r : TransportError + JValue) : Completion JValue :=
  queue_add (then_ (request r)).

Definition cancelModelPull (r : TransportError + JValue) : Completion JValue :=
  queue_add (then_ (request r)).

(** [importModel], given how the POST request settles.  The handler
    [(e) => console.debug(e)] returns [undefined]; the second component
    lists what was written to the console. *)
Definition importModel (r : TransportError + JValue)
  : Completion JValue * list Thrown :=
  match request r with
  | Fulfilled v => (queue_add (then_ (Fulfilled v)), [])
  | Rejected e => (queue_add (then_ (Fulfilled JUndefined)), [e])
  end.

(** [getModelStatus], given how the GET request settles; the request
    resolves to the response object, which is not read. *)
Definition getModelStatus {R : Type} (r : TransportError + R)
  : Completion bool :=
  catchWith (andThen (queue_add (settles r)) (λ _, Fulfilled true))
    (λ _, Fulfilled false).

(** [healthz], given how the GET request settles once the transport
    has given up retrying. *)
Definition healthz {R : Type} (r : TransportError + R) : Completion JValue :=
  andThen (settles r) (λ _, Fulfilled JUndefined).

(** ** The requests the operations send *)

Inductive Verb : Type := GET | POST | DELETE | PATCH.

(** The arguments of a [ky] call: verb, URL, the [json] option and the
    retry limit when one is given. *)
Record HttpRequest : Type := {
  verb : Verb;
  url : string;
  json : option JValue;
  retryLimit : option nat;
}.

(** The text a template literal inserts for a value.  [None] stands
    for the values whose text is not modelled: numbers, arrays and
    objects, none of which the declared argument types admit. *)
Definition templateText (v : JValue) : option string :=
  match v with
  | JUndefined => Some "undefined"
  | JNull => Some "null"
  | JBool true => Some "true"
  | JBool false => Some "false"
  | JStr s => Some s
  | _ => None
  end.

(** An optional string argument: [undefined] when it is left out. *)
Definition optional (a : option string) : JValue :=
  match a with
  | Some s => JStr s
  | None => JUndefined
  end.

(** A call of one of the client's operations. *)
Inductive Operation : Type :=
| GetModel (model : string)
| GetModels
| PullModel (model : string) (id name : option string)
| ImportModel (model modelPath : string) (name option : option string)
| DeleteModel (model : string)
| UpdateModel (model : gmap string JValue)
| CancelModelPull (model : string)
| GetModelStatus (model : string)
| Healthz.

Section Requests.

(** The base URL is a constant that the build defines. *)
Variable API_URL : string.

Definition updateModel_request (model : gmap string JValue)
  : option HttpRequest :=
  id ← templateText (get "id" model);
  Some {| verb := PATCH;
          url := API_URL +:+ "/v1/models/" +:+ id;
          json := Some (JObj (spread (JObj model)));
          retryLimit := None |}.

(** The request an operation sends. *)
Definition requestOf (op : Operation) : option HttpRequest :=
  match op with
  | GetModel model =>
      Some {| verb := GET; url := API_URL +:+ "/v1/models/" +:+ model;
              json := None; retryLimit := None |}
  | GetModels =>
      Some {| verb := GET; url := API_URL +:+ "/models";
              json := None; retryLimit := None |}
  | PullModel model id name =>
      Some {| verb := POST; url := API_URL +:+ "/v1/models/pull";
              json := Some (JObj (<["model" := JStr model]>
                                  (<["id" := optional id]>
                                  (<["name" := optional name]> ∅))));
              retryLimit := None |}
  | ImportModel model modelPath name option =>
      Some {| verb := POST; url := API_URL +:+ "/v1/models/import";
              json := Some (JObj (<["model" := JStr model]>
                                  (<["modelPath" := JStr modelPath]>
                                  (<["name" := optional name]>
                                  (<["option" := optional option]> ∅)))));
              retryLimit := None |}
  | DeleteModel model =>
      Some {| verb := DELETE; url := API_URL +:+ "/models/" +:+ model;
              json := None; retryLimit := None |}
  | UpdateModel model => updateModel_request model
  | CancelModelPull model =>
      Some {| verb := DELETE; url := API_URL +:+ "/models/pull";
              json := Some (JObj (<["taskId" := JStr model]> ∅));
              retryLimit := None |}
  | GetModelStatus model =>
      Some {| verb := GET; url := API_URL +:+ "/models/status/" +:+ model;
              json := None; retryLimit := None |}
  | Healthz =>
      Some {| verb := GET; url := API_URL +:+ "/healthz";
              json := None; retryLimit := Some 10 |}
  end.

End Requests.

(** The operation a call belongs to, without its arguments. *)
Definition kind (op : Operation) : string :=
  match op with
  | GetModel _ => "getModel"
  | GetModels => "getModels"
  | PullModel _ _ _ => "pullModel"
  | ImportModel _ _ _ _ => "importModel"
  | DeleteModel _ => "deleteModel"
  | UpdateModel _ => "updateModel"
  | CancelModelPull _ => "cancelModelPull"
  | GetModelStatus _ => "getModelStatus"
  | Healthz => "healthz"
  end.

(** ** The stream of frames *)

(** The listener runs once for each frame, in the order of arrival. *)
Definition onMessages (frames : list Bridge.Frame) : list Bridge.Effect :=
  frames ≫= Bridge.onMessage.

Definition isTimer (e : Bridge.Effect) : bool :=
  match e with
  | Bridge.SetTimeout _ _ => true
  | Bridge.Emit _ _ => false
  end.

(** The task ids of the progress events among some effects. *)
Definition progressIds (es : list Bridge.Effect) : list string :=
  es ≫= λ e,
    match e with
    | Bridge.Emit _ (Bridge.ProgressPayload p) => [Bridge.modelId p]
    | _ => []
    end.

(** A value is normalized when it is an object or an array (not
    [null]) whose [parameters] and [settings] are objects and whose
    [metadata] is neither [null] nor [undefined]. *)
Definition normalized (v : JValue) : Prop :=
  typeof v = "object" ∧ nullish v = false ∧
  ∃ (ps ss : gmap string JValue) (md : JValue),
    prop "parameters" v = JObj ps ∧
    prop "settings" v = JObj ss ∧
    prop "metadata" v = md ∧
    nullish md = false.

(** ** The chat body *)

Module Chat.

(** [enum MessageStatus] and [enum ContentType] of the core package. *)
Inductive MessageStatus : Type := Ready | Pending | Error | Stopped.

Inductive ContentType : Type := Text | Image | Pdf.

Record ContentValue : Type := {
  value : string;
  annotations : list string;
}.

Record ThreadContent : Type := {
  type : ContentType;
  text : ContentValue;
}.

(** A thread message, with some of its fields; the component reads
    [id], [status] and [content] and hands the whole message on to the
    child components. *)
Record ThreadMessage : Type := {
  id : string;
  thread_id : string;
  status : MessageStatus;
  content : list ThreadContent;
}.

Definition status_eqb (a b : MessageStatus) : bool :=
  match a, b with
  | Ready, Ready | Pending, Pending | Error, Error | Stopped, Stopped => true
  | _, _ => false
  end.

(** What the component renders. *)
Inductive Element : Type :=
| ChatItem (message : ThreadMessage)
| ErrorMessage (message : ThreadMessage).

Record Row : Type := {
  key : string;
  children : list Element;
}.

Inductive View : Type :=
| EmptyModel
| EmptyThread
| ScrollToBottom (rows : list Row).

(** The [div] rendered for the message at [index] in a thread of
    [len] messages; a condition that fails renders nothing. *)
Definition row (len index : nat) (message : ThreadMessage) : Row :=
  {| key := id message;
     children :=
       (if negb (status_eqb (status message) Error)
           && (0 <? length (content message))
        then [ChatItem message] else [])
       ++ (if (status_eqb (status message) Error
               || status_eqb (status message) Stopped)
              && (index =? len - 1)
           then [ErrorMessage message] else []) |}.

(** [ChatBody], as a function of the two atoms it reads. *)
Definition ChatBody {M : Type} (messages : list ThreadMessage)
    (downloadedModels : list M) : View :=
  if length downloadedModels =? 0 then EmptyModel
  else if length messages =? 0 then EmptyThread
  else ScrollToBottom (imap (row (length messages)) messages).

(** The messages shown as chat items, and those shown as errors. *)
Definition chatItems (rows : list Row) : list ThreadMessage :=
  rows ≫= λ r, children r ≫= λ e,
    match e with
    | ChatItem m => [m]
    | ErrorMessage _ => []
    end.

Definition errorMessages (rows : list Row) : list ThreadMessage :=
  rows ≫= λ r, children r ≫= λ e,
    match e with
    | ErrorMessage m => [m]
    | ChatItem _ => []
    end.

(** A message that has content and did not fail. *)
Definition shown (m : ThreadMessage) : bool :=
  negb (status_eqb (status m) Error) && (0 <? length (content m)).

(** A message that failed or was stopped. *)
Definition failed (m : ThreadMessage) : bool :=
  status_eqb (status m) Error || status_eqb (status m) Stopped.

End Chat.

(** ** Sample inputs *)

(** A raw record with a derived and an explicit temperature, a load
    parameter at top level, and no settings or metadata. *)
Definition sampleModel : gmap string JValue :=
  <["id" := JStr "tinyllama"]>
  (<["temperature" := JNum 0.75]>
  (<["ctx_len" := JNum 2048]>
  (<["size" := JNum 1024]>
  (<["parameters" := JObj (<["temperature" := JNum 0.5]> ∅)]> ∅)))).

(** The same record with a metadata object of its own. *)
Definition sampleModelWithMetadata : gmap string JValue :=
  <["metadata" := JObj (<["author" := JStr "jan"]> ∅)]> sampleModel.

(** The frame of the specification's example, and one whose items have
    no bytes. *)
Definition quarterFrame : Bridge.Frame :=
  {| Bridge.type := "DownloadUpdated";
     Bridge.task :=
       {| Bridge.id := "tinyllama";
          Bridge.items :=
            [ {| Bridge.downloadedBytes := 50; Bridge.bytes := 100 |};
              {| Bridge.downloadedBytes := 0; Bridge.bytes := 100 |} ] |} |}.

Definition emptyFilesFrame : Bridge.Frame :=
  {| Bridge.type := "DownloadStarted";
     Bridge.task :=
       {| Bridge.id := "tinyllama";
          Bridge.items :=
            [ {| Bridge.downloadedBytes := 0; Bridge.bytes := 0 |};
              {| Bridge.downloadedBytes := 0; Bridge.bytes := 0 |} ] |} |}.

(** A thread of three messages: an answer, a failure without content
    in the middle, and a stopped answer at the end. *)
Definition sampleAnswer : Chat.ThreadMessage :=
  {| Chat.id := "01"; Chat.thread_id := "t";
     Chat.status := Chat.Ready;
     Chat.content :=
       [ {| Chat.type := Chat.Text;
            Chat.text := {| Chat.value := "hello"; Chat.annotations := [] |} |} ] |}.

Definition sampleFailure : Chat.ThreadMessage :=
  {| Chat.id := "02"; Chat.thread_id := "t";
     Chat.status := Chat.Error; Chat.content := [] |}.

Definition sampleStopped : Chat.ThreadMessage :=
  {| Chat.id := "03"; Chat.thread_id := "t";
     Chat.status := Chat.Stopped;
     Chat.content :=
       [ {| Chat.type := Chat.Text;
            Chat.text := {| Chat.value := "hel"; Chat.annotations := [] |} |} ] |}.

Definition sampleThread : list Chat.ThreadMessage :=
  [sampleAnswer; sampleFailure; sampleStopped].

(** * Properties *)

(** ** Values *)

(** [(a ?? undefined) ?? b] is [a ?? b]. *)
Lemma coalesce_undefined (a b : JValue) :
  coalesce (coalesce a JUndefined) b = coalesce a b.
Proof. unfold coalesce. destruct (nullish a) eqn:Ha; [done|]. by rewrite Ha. Qed.

Lemma get_lookup (k : string) (m : gmap string JValue) (v : JValue) :
  m !! k = Some v → get k m = v.
Proof. unfold get. by intros ->. Qed.

Lemma get_absent (k : string) (m : gmap string JValue) :
  m !! k = None → get k m = JUndefined.
Proof. unfold get. by intros ->. Qed.

Lemma get_insert_ne (k j : string) (v : JValue) (m : gmap string JValue) :
  j ≠ k → get k (<[j := v]> m) = get k m.
Proof. intros Hne. unfold get. by rewrite lookup_insert_ne. Qed.

(** A spread to the right of another wins on the keys it has. *)
Lemma merged_explicit_wins (defaults : gmap string JValue) (explicit : JValue)
    (k : string) (v : JValue) :
  spread explicit !! k = Some v →
  (spread explicit ∪ defaults) !! k = Some v.
Proof. intros Hk. by apply lookup_union_Some_l. Qed.

Lemma merged_default_kept (defaults : gmap string JValue) (explicit : JValue)
    (k : string) :
  spread explicit !! k = None →
  (spread explicit ∪ defaults) !! k = defaults !! k.
Proof. intros Hk. by apply lookup_union_r. Qed.

(** Merging the same defaults a second time changes nothing. *)
Lemma merged_again (defaults : gmap string JValue) (explicit : JValue) :
  merged defaults (merged defaults explicit) = merged defaults explicit.
Proof.
  unfold merged. simpl. f_equal.
  rewrite <- (assoc_L (∪)). by rewrite (idemp_L (∪)).
Qed.

(** ** The normalizer *)

Lemma pick_ignores_normalized (keys : list string) :
  Forall (λ k, k ∉ keys) normalizedFields → ignores_normalized (pick keys).
Proof.
  intros Hdisj model k v Hk. unfold pick.
  apply map_filter_insert_not. intros y. simpl.
  by apply (proj1 (Forall_forall _ _) Hdisj).
Qed.

Lemma sampleInferenceKeys_ignore :
  ignores_normalized (pick sampleInferenceKeys).
Proof.
  apply pick_ignores_normalized.
  by apply (bool_decide_unpack _); vm_compute.
Qed.

Lemma sampleLoadKeys_ignore : ignores_normalized (pick sampleLoadKeys).
Proof.
  apply pick_ignores_normalized.
  by apply (bool_decide_unpack _); vm_compute.
Qed.

Section NormalizerFacts.

Variable extractInferenceParams : gmap string JValue → gmap string JValue.
Variable extractModelLoadParams : gmap string JValue → gmap string JValue.

#[local] Abbreviation transform :=
  (transformModel extractInferenceParams extractModelLoadParams).

(** The record as the first assignment leaves it. *)
#[local] Abbreviation withParameters model :=
  (<["parameters" :=
       merged (extractInferenceParams model) (get "parameters" model)]> model).

Lemma transformModel_parameters (model : gmap string JValue) :
  transform model !! "parameters"
  = Some (merged (extractInferenceParams model) (get "parameters" model)).
Proof.
  unfold transformModel.
  rewrite lookup_insert_ne by done. rewrite lookup_insert_ne by done.
  apply lookup_insert_eq.
Qed.

Lemma transformModel_settings (model : gmap string JValue) :
  transform model !! "settings"
  = Some (merged (extractModelLoadParams (withParameters model))
                 (get "settings" model)).
Proof.
  unfold transformModel.
  rewrite lookup_insert_ne by done. rewrite lookup_insert_eq.
  by rewrite get_insert_ne.
Qed.

Lemma transformModel_metadata_lookup (model : gmap string JValue) :
  transform model !! "metadata"
  = Some (if nullish (get "metadata" model)
          then JObj (<["tags" := JArr []]>
                     (<["size" := coalesce (get "size" model) (JNum 0)]> ∅))
          else get "metadata" model).
Proof.
  unfold transformModel. rewrite lookup_insert_eq.
  rewrite !(get_insert_ne "metadata") by done.
  destruct (nullish (get "metadata" model)) eqn:Hmd; [|done].
  unfold defaultMetadata.
  rewrite !(get_insert_ne "metadata"), !(get_insert_ne "size") by done.
  unfold opt_prop. rewrite Hmd. by rewrite coalesce_undefined.
Qed.

Lemma transformModel_other (model : gmap string JValue) (k : string) :
  k ∉ normalizedFields → transform model !! k = model !! k.
Proof.
  intros Hk. unfold normalizedFields in Hk. set_unfold.
  unfold transformModel. rewrite !lookup_insert_ne by naive_solver. done.
Qed.

Lemma transformModel_metadata_present (model : gmap string JValue) :
  nullish (get "metadata" (transform model)) = false.
Proof.
  rewrite (get_lookup _ _ _ (transformModel_metadata_lookup model)).
  by destruct (nullish (get "metadata" model)) eqn:Hmd.
Qed.

(** A record that already holds merged parameters and settings and a
    metadata value is left as it is. *)
Lemma transformModel_fixed (model : gmap string JValue) (ps ss md : JValue) :
  model !! "parameters" = Some ps →
  merged (extractInferenceParams model) ps = ps →
  model !! "settings" = Some ss →
  merged (extractModelLoadParams model) ss = ss →
  model !! "metadata" = Some md →
  nullish md = false →
  transform model = model.
Proof.
  intros Hps Hmp Hss Hms Hmd Hnn. unfold transformModel.
  rewrite (get_lookup _ _ _ Hps), Hmp, (insert_id _ _ _ Hps).
  rewrite (get_lookup _ _ _ Hss), Hms, (insert_id _ _ _ Hss).
  rewrite (get_lookup _ _ _ Hmd), Hnn. by apply insert_id.
Qed.

Lemma transformModel_extract_inference (model : gmap string JValue) :
  ignores_normalized extractInferenceParams →
  extractInferenceParams (transform model) = extractInferenceParams model.
Proof.
  intros Hig. unfold transformModel.
  rewrite !Hig by (by apply (bool_decide_unpack _); vm_compute). done.
Qed.

Lemma transformModel_extract_load (model : gmap string JValue) :
  ignores_normalized extractModelLoadParams →
  extractModelLoadParams (transform model)
  = extractModelLoadParams (withParameters model).
Proof.
  intros Hig. unfold transformModel.
  rewrite !Hig by (by apply (bool_decide_unpack _); vm_compute). done.
Qed.

Lemma transformModel_idempotent (model : gmap string JValue) :
  ignores_normalized extractInferenceParams →
  ignores_normalized extractModelLoadParams →
  transform (transform model) = transform model.
Proof.
  intros Hinf Hload.
  eapply transformModel_fixed.
  - apply transformModel_parameters.
  - rewrite transformModel_extract_inference by done. apply merged_again.
  - apply transformModel_settings.
  - rewrite transformModel_extract_load by done. apply merged_again.
  - apply transformModel_metadata_lookup.
  - pose proof (transformModel_metadata_present model) as Hp.
    by rewrite (get_lookup _ _ _ (transformModel_metadata_lookup model)) in Hp.
Qed.

End NormalizerFacts.

(** C6. After normalization the record has a [parameters] and a
    [settings] object.  [parameters] is the derived inference
    parameters merged with the record's own [parameters], and
    [settings] is the derived load parameters (read from the record as
    the first assignment left it) merged with the record's own
    [settings]; on every key the record sets itself, its value
    replaces the derived one, and every other key keeps the derived
    value. *)
Theorem transformModel_parameters_settings
    (extractInferenceParams extractModelLoadParams
       : gmap string JValue → gmap string JValue)
    (model : gmap string JValue) :
  ∃ ps ss : gmap string JValue,
    transformModel extractInferenceParams extractModelLoadParams model
      !! "parameters" = Some (JObj ps) ∧
    transformModel extractInferenceParams extractModelLoadParams model
      !! "settings" = Some (JObj ss) ∧
    ps = spread (get "parameters" model) ∪ extractInferenceParams model ∧
    ss = spread (get "settings" model)
         ∪ extractModelLoadParams (<["parameters" := JObj ps]> model) ∧
    (∀ k v, spread (get "parameters" model) !! k = Some v → ps !! k = Some v) ∧
    (∀ k, spread (get "parameters" model) !! k = None →
          ps !! k = extractInferenceParams model !! k) ∧
    (∀ k v, spread (get "settings" model) !! k = Some v → ss !! k = Some v) ∧
    (∀ k, spread (get "settings" model) !! k = None →
          ss !! k
          = extractModelLoadParams (<["parameters" := JObj ps]> model) !! k).
Proof.
  eexists _, _. split; [apply transformModel_parameters|].
  split; [apply transformModel_settings|].
  split; [reflexivity|]. split; [reflexivity|].
  split; [intros k v; apply merged_explicit_wins|].
  split; [intros k; apply merged_default_kept|].
  split; [intros k v; apply merged_explicit_wins|].
  intros k; apply merged_default_kept.
Qed.

(** On [sampleModel] the explicit temperature 0.5 replaces the derived
    0.75, and the derived context length fills the absent settings. *)
Lemma transformModel_parameters_settings_sample :
  ∃ ps ss : gmap string JValue,
    transformModel (pick sampleInferenceKeys) (pick sampleLoadKeys) sampleModel
      !! "parameters" = Some (JObj ps) ∧
    transformModel (pick sampleInferenceKeys) (pick sampleLoadKeys) sampleModel
      !! "settings" = Some (JObj ss) ∧
    pick sampleInferenceKeys sampleModel !! "temperature" = Some (JNum 0.75) ∧
    ps !! "temperature" = Some (JNum 0.5) ∧
    ss !! "ctx_len" = Some (JNum 2048).
Proof.
  destruct (transformModel_parameters_settings
              (pick sampleInferenceKeys) (pick sampleLoadKeys) sampleModel)
    as (ps & ss & Hp & Hs & Hps & Hss & Hpw & _ & _ & Hsd).
  exists ps, ss. split; [exact Hp|]. split; [exact Hs|].
  split; [vm_compute; reflexivity|].
  split; [apply Hpw; vm_compute; reflexivity|].
  rewrite Hsd by (vm_compute; reflexivity).
  rewrite Hps. vm_compute. reflexivity.
Defined.

(** C7. A record without a [metadata] field gets the metadata
    [{tags: [], size}] where [size] is the record's own [size] when it
    has one and 0 otherwise; a metadata value that is present is kept
    as it is. *)
Theorem transformModel_metadata
    (extractInferenceParams extractModelLoadParams
       : gmap string JValue → gmap string JValue)
    (model : gmap string JValue) :
  (model !! "metadata" = None →
   transformModel extractInferenceParams extractModelLoadParams model
     !! "metadata"
   = Some (JObj (<["tags" := JArr []]>
                 (<["size" := coalesce (get "size" model) (JNum 0)]> ∅)))) ∧
  (∀ md, model !! "metadata" = Some md → nullish md = false →
   transformModel extractInferenceParams extractModelLoadParams model
     !! "metadata" = Some md).
Proof.
  split.
  - intros Hno. rewrite transformModel_metadata_lookup.
    by rewrite (get_absent _ _ Hno).
  - intros md Hmd Hnn. rewrite transformModel_metadata_lookup.
    by rewrite (get_lookup _ _ _ Hmd), Hnn.
Qed.

Lemma transformModel_metadata_sample :
  transformModel (pick sampleInferenceKeys) (pick sampleLoadKeys) sampleModel
    !! "metadata"
  = Some (JObj (<["tags" := JArr []]> (<["size" := JNum 1024]> ∅))) ∧
  transformModel (pick sampleInferenceKeys) (pick sampleLoadKeys) (delete "size" sampleModel)
    !! "metadata"
  = Some (JObj (<["tags" := JArr []]> (<["size" := JNum 0]> ∅))) ∧
  transformModel (pick sampleInferenceKeys) (pick sampleLoadKeys)
    sampleModelWithMetadata !! "metadata"
  = Some (JObj (<["author" := JStr "jan"]> ∅)).
Proof.
  split; [|split].
  - rewrite (proj1 (transformModel_metadata _ _ sampleModel))
      by (vm_compute; reflexivity).
    vm_compute. reflexivity.
  - rewrite (proj1 (transformModel_metadata _ _ (delete "size" sampleModel)))
      by (vm_compute; reflexivity).
    vm_compute. reflexivity.
  - apply (proj2 (transformModel_metadata _ _ sampleModelWithMetadata)).
    + vm_compute. reflexivity.
    + reflexivity.
Defined.

(** C8, as stated, fails: the normalizer writes to the record it is
    given.  A store holding the empty record at reference 0 holds a
    different record after the call. *)
Lemma transformModel_ref_writes_store :
  ∃ h' : gmap nat (gmap string JValue),
    transformModel_ref (pick sampleInferenceKeys) (pick sampleLoadKeys)
      0 {[0 := ∅]} = Some (0, h') ∧
    h' !! 0 ≠ ({[0 := ∅]} : gmap nat (gmap string JValue)) !! 0.
Proof.
  eexists. split; [reflexivity|].
  rewrite lookup_insert_eq, lookup_singleton_eq.
  intros Heq. apply (inj Some) in Heq.
  apply (f_equal (lookup "parameters")) in Heq.
  rewrite transformModel_parameters, lookup_empty in Heq. discriminate.
Qed.

(** C8, amended.  The normalizer returns the reference it was given
    and writes to that record only: after the call the record holds
    the merged [parameters], the merged [settings] and its [metadata]
    (or the default one), its other fields are as before, and every
    other record of the store is untouched.  When neither extractor
    reads the fields [parameters], [settings] and [metadata],
    normalizing the record again leaves the store as the first call
    left it. *)
Theorem transformModel_ref_idempotent
    (extractInferenceParams extractModelLoadParams
       : gmap string JValue → gmap string JValue)
    (l l' : nat) (h h' : gmap nat (gmap string JValue)) :
  transformModel_ref extractInferenceParams extractModelLoadParams l h
  = Some (l', h') →
  l' = l ∧
  (∀ j, j ≠ l → h' !! j = h !! j) ∧
  (∃ model model' : gmap string JValue,
     h !! l = Some model ∧
     h' !! l = Some model' ∧
     model' !! "parameters"
     = Some (JObj (spread (get "parameters" model)
                   ∪ extractInferenceParams model)) ∧
     model' !! "settings"
     = Some (JObj (spread (get "settings" model)
                   ∪ extractModelLoadParams
                       (<["parameters" :=
                            JObj (spread (get "parameters" model)
                                  ∪ extractInferenceParams model)]> model))) ∧
     model' !! "metadata"
     = Some (if nullish (get "metadata" model)
             then JObj (<["tags" := JArr []]>
                        (<["size" := coalesce (get "size" model) (JNum 0)]> ∅))
             else get "metadata" model) ∧
     (∀ k, k ∉ normalizedFields → model' !! k = model !! k)) ∧
  (ignores_normalized extractInferenceParams →
   ignores_normalized extractModelLoadParams →
   transformModel_ref extractInferenceParams extractModelLoadParams l h'
   = Some (l, h')).
Proof.
  unfold transformModel_ref.
  destruct (h !! l) as [model|] eqn:Hl; simpl; [|discriminate].
  intros [= <- <-]. split; [done|].
  split; [intros j Hj; by rewrite lookup_insert_ne|].
  split.
  - exists model, (transformModel extractInferenceParams
                     extractModelLoadParams model).
    split; [done|]. split; [apply lookup_insert_eq|].
    split; [apply transformModel_parameters|].
    split; [apply transformModel_settings|].
    split; [apply transformModel_metadata_lookup|].
    apply transformModel_other.
  - intros Hinf Hload. rewrite lookup_insert_eq. simpl.
    rewrite transformModel_idempotent by done.
    by rewrite insert_insert_eq.
Qed.

(** On a store that holds [sampleModel] at reference 0: the record
    gets its merged parameters, and a second call changes nothing. *)
Lemma transformModel_ref_idempotent_sample :
  (∃ model' : gmap string JValue,
     (<[0 := transformModel (pick sampleInferenceKeys) (pick sampleLoadKeys)
               sampleModel]> {[0 := sampleModel]}
        : gmap nat (gmap string JValue)) !! 0 = Some model' ∧
     model' !! "parameters"
     = Some (JObj (<["temperature" := JNum 0.5]> ∅)) ∧
     model' !! "id" = Some (JStr "tinyllama")) ∧
  transformModel_ref (pick sampleInferenceKeys) (pick sampleLoadKeys) 0
    (<[0 := transformModel (pick sampleInferenceKeys) (pick sampleLoadKeys)
              sampleModel]> {[0 := sampleModel]})
  = Some (0, <[0 := transformModel (pick sampleInferenceKeys)
                      (pick sampleLoadKeys) sampleModel]> {[0 := sampleModel]}).
Proof.
  assert (transformModel_ref (pick sampleInferenceKeys) (pick sampleLoadKeys)
            0 {[0 := sampleModel]}
          = Some (0, <[0 := transformModel (pick sampleInferenceKeys)
                              (pick sampleLoadKeys) sampleModel]>
                       {[0 := sampleModel]})) as Hcall by reflexivity.
  destruct (transformModel_ref_idempotent
              (pick sampleInferenceKeys) (pick sampleLoadKeys)
              0 0 {[0 := sampleModel]} _ Hcall)
    as (_ & _ & (model & model' & Hm & Hm' & Hps & _ & _ & Hother) & Hagain).
  split.
  - exists model'. split; [exact Hm'|].
    rewrite lookup_singleton_eq in Hm. injection Hm as <-.
    split.
    + rewrite Hps. vm_compute. reflexivity.
    + rewrite Hother by (by apply (bool_decide_unpack _)).
      vm_compute. reflexivity.
  - apply Hagain.
    + exact sampleInferenceKeys_ignore.
    + exact sampleLoadKeys_ignore.
Defined.

(** ** getModels *)

Section GetModelsFacts.

Variable extractInferenceParams : gmap string JValue → gmap string JValue.
Variable extractModelLoadParams : gmap string JValue → gmap string JValue.

#[local] Abbreviation transform :=
  (transformModel extractInferenceParams extractModelLoadParams).
#[local] Abbreviation transform_value :=
  (transformModel_value extractInferenceParams extractModelLoadParams).
#[local] Abbreviation models :=
  (getModels extractInferenceParams extractModelLoadParams).

Lemma mapThrowing_records (rs : list (gmap string JValue)) :
  mapThrowing transform_value (JObj <$> rs)
  = Fulfilled (JObj <$> (transform <$> rs)).
Proof.
  induction rs as [|r rs IH]; [done|].
  rewrite !fmap_cons. cbn [mapThrowing transformModel_value andThen].
  by rewrite IH.
Qed.

(** A response whose [typeof] is not ["object"] gives the empty list. *)
Lemma getModels_not_typeof_object (e : JValue) :
  typeof e ≠ "object" → models (inr e) = Fulfilled [].
Proof.
  intros Hty. unfold getModels, queue_add. simpl.
  destruct (String.eqb_spec (typeof e) "object") as [Heq|_]; [by destruct Hty|done].
Qed.

(** A response [{data: [r1, ..., rn]}] of records gives the normalized
    records in the same order. *)
Lemma getModels_data (m : gmap string JValue) (rs : list (gmap string JValue)) :
  m !! "data" = Some (JArr (JObj <$> rs)) →
  models (inr (JObj m)) = Fulfilled (JObj <$> (transform <$> rs)).
Proof.
  intros Hdata. unfold getModels, queue_add, data_of, prop. simpl.
  rewrite (get_lookup _ _ _ Hdata). simpl. apply mapThrowing_records.
Qed.

(** An object without a [data] array, and an array, are rejected with a
    type error. *)
Lemma getModels_no_data (m : gmap string JValue) :
  m !! "data" = None → models (inr (JObj m)) = Rejected TypeError.
Proof.
  intros Hdata. unfold getModels, queue_add, data_of, prop. simpl.
  by rewrite (get_absent _ _ Hdata).
Qed.

(** A transport error is passed on. *)
Lemma getModels_transport_error (e : TransportError) :
  models (inl e) = Rejected (Transport e).
Proof. reflexivity. Qed.

End GetModelsFacts.

(** The empty string, which the transport returns for an empty body,
    gives the empty list. *)
Lemma getModels_not_typeof_object_sample :
  getModels (pick sampleInferenceKeys) (pick sampleLoadKeys) (inr (JStr ""))
  = Fulfilled [].
Proof.
  apply (getModels_not_typeof_object
           (pick sampleInferenceKeys) (pick sampleLoadKeys) (JStr "")).
  discriminate.
Defined.

(** A list of two records comes back normalized, in order. *)
Lemma getModels_data_sample :
  getModels (pick sampleInferenceKeys) (pick sampleLoadKeys)
    (inr (JObj (<["data" := JArr (JObj <$> [sampleModel; sampleModelWithMetadata])]> ∅)))
  = Fulfilled
      (JObj <$>
         (transformModel (pick sampleInferenceKeys) (pick sampleLoadKeys)
            <$> [sampleModel; sampleModelWithMetadata])).
Proof.
  apply (getModels_data (pick sampleInferenceKeys) (pick sampleLoadKeys)).
  apply lookup_insert_eq.
Defined.

(** C2.  The guard of [getModels] is [typeof e === 'object'], which
    holds of [null] and of arrays: on the response [null] the handler
    reads [null.data], on an array it calls [map] on the absent [data];
    either way the promise is rejected with a type error, where the
    claim promises the empty list for a response that is not an
    object. *)
Theorem getModels_null_response
    (extractInferenceParams extractModelLoadParams
       : gmap string JValue → gmap string JValue) :
  typeof JNull = "object" ∧
  getModels extractInferenceParams extractModelLoadParams (inr JNull)
  = Rejected TypeError ∧
  getModels extractInferenceParams extractModelLoadParams
    (inr (JArr [JObj sampleModel]))
  = Rejected TypeError.
Proof. split; [reflexivity|]. split; [reflexivity|]. vm_compute. reflexivity. Qed.

(** ** pullModel *)

(** An accepted pull is fulfilled with the parsed response. *)
Lemma pullModel_accepted (v : JValue) : pullModel (inr v) = Fulfilled v.
Proof. reflexivity. Qed.

(** An error response with a JSON body other than [null] rejects with
    that body. *)
Lemma pullModel_error_body (e : TransportError) (v : JValue) :
  response e = Some (Json v) → nullish v = false →
  pullModel (inl e) = Rejected (Value v).
Proof.
  intros He Hv. unfold pullModel, queue_add, pull_catch, response_json.
  rewrite He. simpl. by rewrite Hv.
Qed.

(** An error without a response, or whose body is [null], rejects with
    the transport error itself. *)
Lemma pullModel_raw_error (e : TransportError) :
  response e = None ∨ response e = Some (Json JNull) →
  pullModel (inl e) = Rejected (Transport e).
Proof.
  unfold pullModel, queue_add, pull_catch, response_json.
  by intros [-> | ->].
Qed.

Lemma pullModel_error_body_sample :
  pullModel
    (inl {| name := "HTTPError";
            response := Some (Json (JObj (<["message" := JStr "model not found"]> ∅))) |})
  = Rejected (Value (JObj (<["message" := JStr "model not found"]> ∅))).
Proof.
  apply pullModel_error_body; reflexivity.
Defined.

Lemma pullModel_raw_error_sample :
  pullModel (inl {| name := "TimeoutError"; response := None |})
  = Rejected (Transport {| name := "TimeoutError"; response := None |}).
Proof.
  apply pullModel_raw_error. left. reflexivity.
Defined.

(** C9.  When the error carries a response whose body is not JSON,
    reading the body fails inside the catch handler, and the caller
    sees that parse error: neither a parsed body nor the transport
    error. *)
Theorem pullModel_unparsable_body (n : string) :
  pullModel (inl {| name := n; response := Some NotJson |})
  = Rejected SyntaxError ∧
  Rejected (A := JValue) SyntaxError
  ≠ Rejected (Transport {| name := n; response := Some NotJson |}).
Proof. split; [reflexivity|discriminate]. Qed.

(** ** The socket message handler *)

(** A float equal to zero is not greater than zero. *)
Lemma float_zero_not_positive (x : float) :
  (x =? 0)%float = true → (0 <? x)%float = false.
Proof.
  rewrite FloatAxioms.eqb_spec, FloatAxioms.ltb_spec.
  destruct (Prim2SF x) as [[]|[]| |[] m e]; vm_compute; congruence.
Qed.

(** The sums are taken from left to right, starting from 0. *)
Lemma sumDownloaded_nil : Bridge.sumDownloaded [] = 0%float.
Proof. reflexivity. Qed.

Lemma sumDownloaded_snoc (its : list Bridge.Item) (i : Bridge.Item) :
  Bridge.sumDownloaded (its ++ [i])
  = (Bridge.sumDownloaded its + Bridge.downloadedBytes i)%float.
Proof. unfold Bridge.sumDownloaded. by rewrite fold_left_app. Qed.

Lemma sumBytes_nil : Bridge.sumBytes [] = 0%float.
Proof. reflexivity. Qed.

Lemma sumBytes_snoc (its : list Bridge.Item) (i : Bridge.Item) :
  Bridge.sumBytes (its ++ [i])
  = (Bridge.sumBytes its + Bridge.bytes i)%float.
Proof. unfold Bridge.sumBytes. by rewrite fold_left_app. Qed.

(** The table lookup succeeds on the five member names only. *)
Lemma DownloadTypes_lookup (t ev : string) :
  Bridge.DownloadTypes !! t = Some ev →
  (t, ev) ∈ [ ("DownloadUpdated", "onFileDownloadUpdate");
              ("DownloadError", "onFileDownloadError");
              ("DownloadSuccess", "onFileDownloadSuccess");
              ("DownloadStopped", "onFileDownloadStopped");
              ("DownloadStarted", "onFileDownloadStarted") ].
Proof. intros Hev. by apply elem_of_list_to_map_2 in Hev. Qed.

(** No member name is the value that the success test compares with. *)
Lemma DownloadTypes_member_not_success (t ev : string) :
  Bridge.DownloadTypes !! t = Some ev →
  String.eqb t Bridge.DownloadSuccess = false.
Proof.
  intros Hev%DownloadTypes_lookup.
  repeat (apply elem_of_cons in Hev as [[= -> ->]|Hev]; [reflexivity|]).
  by apply elem_of_nil in Hev.
Qed.

(** C4.  The first effect of the handler is the progress event; its
    [size] holds the left-to-right sums of the items' [downloadedBytes]
    and [bytes], its [percent] is their quotient when the total is
    positive and 0 when the total is zero.  The sums start at 0 and add
    one item at a time. *)
Theorem onMessage_aggregate (data : Bridge.Frame) :
  head (Bridge.onMessage data)
  = Some (Bridge.Emit (Bridge.lookupType (Bridge.type data))
            (Bridge.ProgressPayload (Bridge.progressOf data))) ∧
  Bridge.transferred (Bridge.size (Bridge.progressOf data))
  = Bridge.sumDownloaded (Bridge.items (Bridge.task data)) ∧
  Bridge.total (Bridge.size (Bridge.progressOf data))
  = Bridge.sumBytes (Bridge.items (Bridge.task data)) ∧
  ((0 <? Bridge.sumBytes (Bridge.items (Bridge.task data)))%float = true →
   Bridge.percent (Bridge.progressOf data)
   = (Bridge.sumDownloaded (Bridge.items (Bridge.task data))
      / Bridge.sumBytes (Bridge.items (Bridge.task data)))%float) ∧
  ((Bridge.sumBytes (Bridge.items (Bridge.task data)) =? 0)%float = true →
   Bridge.percent (Bridge.progressOf data) = 0%float) ∧
  (Bridge.sumDownloaded [] = 0%float ∧ Bridge.sumBytes [] = 0%float) ∧
  (∀ its i,
     Bridge.sumDownloaded (its ++ [i])
     = (Bridge.sumDownloaded its + Bridge.downloadedBytes i)%float ∧
     Bridge.sumBytes (its ++ [i])
     = (Bridge.sumBytes its + Bridge.bytes i)%float).
Proof.
  split; [reflexivity|]. split; [reflexivity|]. split; [reflexivity|].
  split; [|split; [|split]].
  - intros Hpos. unfold Bridge.progressOf. simpl. by rewrite Hpos.
  - intros Hzero%float_zero_not_positive.
    unfold Bridge.progressOf. simpl. by rewrite Hzero.
  - split; reflexivity.
  - intros its i. split; [apply sumDownloaded_snoc|apply sumBytes_snoc].
Qed.

(** The example of the specification: 50 of 200 bytes is 0.25, and
    items without bytes give 0. *)
Lemma onMessage_aggregate_examples :
  Bridge.percent (Bridge.progressOf quarterFrame) = 0.25%float ∧
  Bridge.size (Bridge.progressOf quarterFrame)
  = {| Bridge.transferred := 50; Bridge.total := 200 |} ∧
  Bridge.percent (Bridge.progressOf emptyFilesFrame) = 0%float.
Proof.
  destruct (onMessage_aggregate quarterFrame)
    as (_ & _ & _ & Hquot & _).
  destruct (onMessage_aggregate emptyFilesFrame)
    as (_ & _ & _ & _ & Hzero & _).
  split; [|split].
  - rewrite Hquot by (vm_compute; reflexivity). vm_compute. reflexivity.
  - vm_compute. reflexivity.
  - apply Hzero. vm_compute. reflexivity.
Defined.

(** C10.  On a frame without items both sums are 0, the guard fails and
    the quotient, which would not be a number, is not taken: the
    progress event carries percent 0 and size 0 of 0. *)
Theorem onMessage_no_items (ty tid : string) :
  Bridge.onMessage
    {| Bridge.type := ty;
       Bridge.task := {| Bridge.id := tid; Bridge.items := [] |} |}
  = Bridge.Emit (Bridge.lookupType ty)
      (Bridge.ProgressPayload
         {| Bridge.modelId := tid;
            Bridge.percent := 0;
            Bridge.size := {| Bridge.transferred := 0; Bridge.total := 0 |} |})
    :: (if String.eqb ty Bridge.DownloadSuccess
        then [Bridge.SetTimeout
                [(Bridge.OnModelsUpdate, Bridge.EmptyPayload)] 500]
        else []) ∧
  (0 <? Bridge.sumBytes [])%float = false ∧
  PrimFloat.is_nan (Bridge.sumDownloaded [] / Bridge.sumBytes [])%float = true.
Proof. split; [reflexivity|]. split; reflexivity. Qed.

(** C3, as stated, fails: the table is indexed by member name, and the
    five event names are its values, not its members.  A frame whose
    type is ["onFileDownloadUpdate"] is emitted under the name
    [undefined]; so is a frame of each of the other four event names. *)
Lemma onMessage_event_name_as_type :
  Bridge.onMessage
    {| Bridge.type := "onFileDownloadUpdate";
       Bridge.task := {| Bridge.id := "tinyllama"; Bridge.items := [] |} |}
  = [ Bridge.Emit Bridge.Undefined
        (Bridge.ProgressPayload
           {| Bridge.modelId := "tinyllama";
              Bridge.percent := 0;
              Bridge.size :=
                {| Bridge.transferred := 0; Bridge.total := 0 |} |}) ] ∧
  Bridge.Undefined ≠ Bridge.Named "onFileDownloadUpdate" ∧
  Forall (λ t, Bridge.lookupType t = Bridge.Undefined)
    [ "onFileDownloadUpdate"; "onFileDownloadError"; "onFileDownloadSuccess";
      "onFileDownloadStopped"; "onFileDownloadStarted" ].
Proof.
  split; [reflexivity|]. split; [discriminate|].
  repeat constructor.
Qed.

(** C3, amended.  For a frame whose type is one of the member names
    [DownloadUpdated], [DownloadError], [DownloadSuccess],
    [DownloadStopped], [DownloadStarted], the handler emits exactly one
    event when the frame arrives, and emits it first: the event is
    named [onFileDownloadUpdate], [onFileDownloadError],
    [onFileDownloadSuccess], [onFileDownloadStopped],
    [onFileDownloadStarted] respectively and carries the payload
    [{modelId = task.id, percent, size}]; distinct members get distinct
    names. *)
Theorem onMessage_member_type (data : Bridge.Frame) (ev : string) :
  (Bridge.type data, ev)
    ∈ [ ("DownloadUpdated", "onFileDownloadUpdate");
        ("DownloadError", "onFileDownloadError");
        ("DownloadSuccess", "onFileDownloadSuccess");
        ("DownloadStopped", "onFileDownloadStopped");
        ("DownloadStarted", "onFileDownloadStarted") ] →
  head (Bridge.onMessage data)
  = Some (Bridge.Emit (Bridge.Named ev)
            (Bridge.ProgressPayload
               {| Bridge.modelId := Bridge.id (Bridge.task data);
                  Bridge.percent := Bridge.percent (Bridge.progressOf data);
                  Bridge.size :=
                    {| Bridge.transferred :=
                         Bridge.sumDownloaded (Bridge.items (Bridge.task data));
                       Bridge.total :=
                         Bridge.sumBytes (Bridge.items (Bridge.task data)) |} |})) ∧
  filter (λ e, isTimer e = false) (Bridge.onMessage data)
  = [ Bridge.Emit (Bridge.Named ev)
        (Bridge.ProgressPayload
           {| Bridge.modelId := Bridge.id (Bridge.task data);
              Bridge.percent := Bridge.percent (Bridge.progressOf data);
              Bridge.size :=
                {| Bridge.transferred :=
                     Bridge.sumDownloaded (Bridge.items (Bridge.task data));
                   Bridge.total :=
                     Bridge.sumBytes (Bridge.items (Bridge.task data)) |} |}) ] ∧
  (∀ t' ev',
     (t', ev')
       ∈ [ ("DownloadUpdated", "onFileDownloadUpdate");
           ("DownloadError", "onFileDownloadError");
           ("DownloadSuccess", "onFileDownloadSuccess");
           ("DownloadStopped", "onFileDownloadStopped");
           ("DownloadStarted", "onFileDownloadStarted") ] →
     t' = Bridge.type data ↔ ev' = ev).
Proof.
  intros Hin. destruct data as [ty tk]. simpl in *.
  apply list_elem_of_In in Hin. simpl in Hin.
  split; [|split].
  - destruct Hin as [Hp|[Hp|[Hp|[Hp|[Hp|[]]]]]];
      injection Hp as <- <-; reflexivity.
  - destruct Hin as [Hp|[Hp|[Hp|[Hp|[Hp|[]]]]]];
      injection Hp as <- <-; reflexivity.
  - intros t' ev' Hin'. apply list_elem_of_In in Hin'. simpl in Hin'.
    intuition congruence.
Qed.

Lemma onMessage_member_type_sample :
  head (Bridge.onMessage quarterFrame)
  = Some (Bridge.Emit (Bridge.Named "onFileDownloadUpdate")
            (Bridge.ProgressPayload
               {| Bridge.modelId := "tinyllama";
                  Bridge.percent := 0.25;
                  Bridge.size :=
                    {| Bridge.transferred := 50; Bridge.total := 200 |} |})) ∧
  filter (λ e, isTimer e = false) (Bridge.onMessage quarterFrame)
  = [ Bridge.Emit (Bridge.Named "onFileDownloadUpdate")
        (Bridge.ProgressPayload
           {| Bridge.modelId := "tinyllama";
              Bridge.percent := 0.25;
              Bridge.size :=
                {| Bridge.transferred := 50; Bridge.total := 200 |} |}) ].
Proof.
  assert (("DownloadUpdated", "onFileDownloadUpdate")
            ∈ [ ("DownloadUpdated", "onFileDownloadUpdate");
                ("DownloadError", "onFileDownloadError");
                ("DownloadSuccess", "onFileDownloadSuccess");
                ("DownloadStopped", "onFileDownloadStopped");
                ("DownloadStarted", "onFileDownloadStarted") ]) as Hin
    by apply list_elem_of_here.
  destruct (onMessage_member_type quarterFrame "onFileDownloadUpdate" Hin)
    as (Hhead & Hemit & _).
  split.
  - rewrite Hhead. vm_compute. reflexivity.
  - rewrite Hemit. vm_compute. reflexivity.
Defined.

(** C5.  A frame of type [DownloadSuccess] is the one emitted as
    ["onFileDownloadSuccess"], and the handler sets no timer for it: the
    test compares the frame type with the event name.  The timer is set
    for the frame type ["onFileDownloadSuccess"], whose progress event
    has no name. *)
Theorem onMessage_success_no_update (t : Bridge.Task) :
  Bridge.onMessage {| Bridge.type := "DownloadSuccess"; Bridge.task := t |}
  = [ Bridge.Emit (Bridge.Named "onFileDownloadSuccess")
        (Bridge.ProgressPayload
           (Bridge.progressOf
              {| Bridge.type := "DownloadSuccess"; Bridge.task := t |})) ] ∧
  Bridge.timeline
    (Bridge.onMessage
       {| Bridge.type := "onFileDownloadSuccess"; Bridge.task := t |})
  = [ (0%Z, Bridge.Undefined,
       Bridge.ProgressPayload
         (Bridge.progressOf
            {| Bridge.type := "onFileDownloadSuccess"; Bridge.task := t |}));
      (500%Z, Bridge.OnModelsUpdate, Bridge.EmptyPayload) ].
Proof. split; reflexivity. Qed.

(** * Further properties *)

(** ** The normalizer *)

(** The normalizer leaves every field other than [parameters],
    [settings] and [metadata] as it found it. *)
Theorem transformModel_keeps_fields
    (extractInferenceParams extractModelLoadParams
       : gmap string JValue → gmap string JValue)
    (model : gmap string JValue) (k : string) :
  k ∉ normalizedFields →
  transformModel extractInferenceParams extractModelLoadParams model !! k
  = model !! k.
Proof.
  intros Hk. unfold transformModel.
  rewrite !lookup_insert_ne; [done|..];
    intros <-; apply Hk; by apply (bool_decide_unpack _).
Qed.

Lemma transformModel_keeps_fields_sample :
  transformModel (pick sampleInferenceKeys) (pick sampleLoadKeys) sampleModel
    !! "temperature" = Some (JNum 0.75) ∧
  transformModel (pick sampleInferenceKeys) (pick sampleLoadKeys) sampleModel
    !! "engine" = None.
Proof.
  split.
  - rewrite transformModel_keeps_fields; [reflexivity|].
    by apply (bool_decide_unpack _).
  - rewrite transformModel_keeps_fields; [reflexivity|].
    by apply (bool_decide_unpack _).
Defined.

(** Whatever the record, the normalized record has a [parameters]
    object, a [settings] object and a [metadata] that is neither [null]
    nor [undefined]; the keys of [parameters] are the record's own
    parameter keys together with the derived ones, nothing more. *)
Theorem transformModel_shape
    (extractInferenceParams extractModelLoadParams
       : gmap string JValue → gmap string JValue)
    (model : gmap string JValue) :
  ∃ (ps ss : gmap string JValue) (md : JValue),
    transformModel extractInferenceParams extractModelLoadParams model
      !! "parameters" = Some (JObj ps) ∧
    transformModel extractInferenceParams extractModelLoadParams model
      !! "settings" = Some (JObj ss) ∧
    transformModel extractInferenceParams extractModelLoadParams model
      !! "metadata" = Some md ∧
    nullish md = false ∧
    dom ps = dom (spread (get "parameters" model))
             ∪ dom (extractInferenceParams model) ∧
    dom (spread (get "settings" model)) ⊆ dom ss.
Proof.
  eexists _, _, _.
  split; [apply transformModel_parameters|].
  split; [apply transformModel_settings|].
  split; [apply transformModel_metadata_lookup|].
  split; [by destruct (nullish (get "metadata" model)) eqn:Hmd|].
  split; [apply dom_union_L|].
  rewrite dom_union_L. apply union_subseteq_l.
Qed.

(** A [metadata] that is [null] is replaced like an absent one. *)
Theorem transformModel_null_metadata
    (extractInferenceParams extractModelLoadParams
       : gmap string JValue → gmap string JValue)
    (model : gmap string JValue) :
  model !! "metadata" = Some JNull →
  transformModel extractInferenceParams extractModelLoadParams model
    !! "metadata"
  = Some (JObj (<["tags" := JArr []]>
                (<["size" := coalesce (get "size" model) (JNum 0)]> ∅))).
Proof.
  intros Hmd. rewrite transformModel_metadata_lookup.
  by rewrite (get_lookup _ _ _ Hmd).
Qed.

Lemma transformModel_null_metadata_sample :
  transformModel (pick sampleInferenceKeys) (pick sampleLoadKeys)
    (<["metadata" := JNull]> sampleModel) !! "metadata"
  = Some (JObj (<["tags" := JArr []]> (<["size" := JNum 1024]> ∅))).
Proof.
  rewrite (transformModel_null_metadata _ _ (<["metadata" := JNull]> sampleModel))
    by (vm_compute; reflexivity).
  vm_compute. reflexivity.
Defined.

(** Merging defaults into a value gives the value back exactly when it
    is an object that already has every default key. *)
Lemma merged_fixed_iff (defaults : gmap string JValue) (explicit : JValue) :
  merged defaults explicit = explicit
  ↔ ∃ ps, explicit = JObj ps ∧ dom defaults ⊆ dom ps.
Proof.
  unfold merged. split.
  - intros Heq. exists (spread explicit ∪ defaults).
    split; [done|]. rewrite dom_union. set_solver.
  - intros (ps & -> & Hdom). simpl. f_equal.
    apply map_eq. intros k. destruct (ps !! k) as [v|] eqn:Hk.
    + by apply lookup_union_Some_l.
    + rewrite lookup_union_r by done.
      apply not_elem_of_dom. apply not_elem_of_dom in Hk. set_solver.
Qed.

(** A record is left unchanged by the normalizer exactly when its
    [parameters] is an object that has every derived inference key, its
    [settings] is an object that has every derived load key, and its
    [metadata] is neither absent nor [null]. *)
Theorem transformModel_unchanged_iff
    (extractInferenceParams extractModelLoadParams
       : gmap string JValue → gmap string JValue)
    (model : gmap string JValue) :
  transformModel extractInferenceParams extractModelLoadParams model = model
  ↔ (∃ ps, model !! "parameters" = Some (JObj ps) ∧
           dom (extractInferenceParams model) ⊆ dom ps) ∧
    (∃ ss, model !! "settings" = Some (JObj ss) ∧
           dom (extractModelLoadParams model) ⊆ dom ss) ∧
    (∃ md, model !! "metadata" = Some md ∧ nullish md = false).
Proof.
  split.
  - intros Hfix.
    assert (model !! "parameters"
            = Some (merged (extractInferenceParams model)
                      (get "parameters" model))) as Hps.
    { rewrite <- Hfix at 1. apply transformModel_parameters. }
    assert (model !! "settings"
            = Some (merged (extractModelLoadParams model)
                      (get "settings" model))) as Hss.
    { rewrite <- Hfix at 1. rewrite transformModel_settings.
      by rewrite (insert_id _ _ _ Hps). }
    split; [|split].
    + pose proof (get_lookup _ _ _ Hps) as Hget.
      symmetry in Hget. apply merged_fixed_iff in Hget as (ps & Hobj & Hdom).
      exists ps. split; [|done]. by rewrite <- Hobj, (get_lookup _ _ _ Hps).
    + pose proof (get_lookup _ _ _ Hss) as Hget.
      symmetry in Hget. apply merged_fixed_iff in Hget as (ss & Hobj & Hdom).
      exists ss. split; [|done]. by rewrite <- Hobj, (get_lookup _ _ _ Hss).
    + eexists. split.
      * rewrite <- Hfix at 1. apply transformModel_metadata_lookup.
      * by destruct (nullish (get "metadata" model)) eqn:Hmd.
  - intros ((ps & Hps & Hdp) & (ss & Hss & Hds) & (md & Hmd & Hnn)).
    eapply transformModel_fixed;
      [exact Hps| |exact Hss| |exact Hmd|exact Hnn];
      apply merged_fixed_iff; eauto.
Qed.

(** [sampleModel] is changed by a first pass and not by a second. *)
Lemma transformModel_unchanged_iff_sample :
  transformModel (pick sampleInferenceKeys) (pick sampleLoadKeys) sampleModel
  ≠ sampleModel ∧
  transformModel (pick sampleInferenceKeys) (pick sampleLoadKeys)
    (transformModel (pick sampleInferenceKeys) (pick sampleLoadKeys) sampleModel)
  = transformModel (pick sampleInferenceKeys) (pick sampleLoadKeys) sampleModel.
Proof.
  split.
  - intros Hfix%transformModel_unchanged_iff.
    destruct Hfix as (_ & (ss & Hss & _) & _). vm_compute in Hss. discriminate.
  - apply transformModel_unchanged_iff. split; [|split].
    + eexists. split; [vm_compute; reflexivity|].
      by apply (bool_decide_unpack _); vm_compute.
    + eexists. split; [vm_compute; reflexivity|].
      by apply (bool_decide_unpack _); vm_compute.
    + eexists. split; vm_compute; reflexivity.
Defined.

(** ** getModel and getModels *)

(** [xs.map(f)] gives a list exactly when [f] gives a value on each
    element; the results are in the order of the elements. *)
Lemma mapThrowing_Forall2 {A B : Type} (f : A → Completion B)
    (xs : list A) (ys : list B) :
  mapThrowing f xs = Fulfilled ys ↔ Forall2 (λ x y, f x = Fulfilled y) xs ys.
Proof.
  revert ys. induction xs as [|x xs IH]; intros ys; simpl.
  - split.
    + intros [= <-]. constructor.
    + intros ->%Forall2_nil_inv_l. done.
  - destruct (f x) as [y|t] eqn:Hx; simpl.
    + destruct (mapThrowing f xs) as [ys'|t] eqn:Hxs; simpl.
      * split.
        -- intros [= <-]. constructor; [done|]. by apply IH.
        -- intros (y' & ys'' & Hy & Htl & ->)%Forall2_cons_inv_l.
           rewrite Hx in Hy. injection Hy as <-.
           apply IH in Htl. by injection Htl as <-.
      * split; [done|].
        intros (y' & ys'' & Hy & Htl & ->)%Forall2_cons_inv_l.
        by apply IH in Htl.
    + split; [done|].
      intros (y' & ys'' & Hy & Htl & ->)%Forall2_cons_inv_l.
      rewrite Hx in Hy. done.
Qed.

(** One element on which [f] throws makes [xs.map(f)] throw. *)
Lemma mapThrowing_rejected {A B : Type} (f : A → Completion B)
    (xs : list A) (x : A) (t : Thrown) :
  x ∈ xs → f x = Rejected t → ∃ t', mapThrowing f xs = Rejected t'.
Proof.
  intros Hin Hx. induction Hin as [x xs|x y xs Hin IH]; simpl.
  - rewrite Hx. by eexists.
  - destruct (f y) as [v|t'']; simpl; [|by eexists].
    destruct (IH Hx) as [t' ->]. by eexists.
Qed.

(** No decimal numeral is the string ["data"]. *)
Lemma pretty_N_go_not_data (x : N) (s : string) :
  s ≠ "data" → pretty_N_go x s ≠ "data".
Proof.
  revert s. induction (N.lt_wf_0 x) as [x _ IH]; intros s Hs.
  assert (x = 0 ∨ 0 < x)%N as [->|Hpos] by lia.
  - by rewrite pretty_N_go_0.
  - rewrite pretty_N_go_step by done.
    assert (∀ c s', String (pretty_N_char c) s' ≠ "data") as Hdigit.
    { intros c s'. unfold pretty_N_char. by repeat case_match. }
    destruct (decide (x `div` 10 = 0)%N) as [Hz|Hnz].
    + rewrite Hz, pretty_N_go_0. apply Hdigit.
    + apply IH; [by apply N.div_lt|apply Hdigit].
Qed.

Lemma pretty_nat_not_data (i : nat) : pretty i ≠ "data".
Proof.
  unfold pretty, pretty_nat, pretty, pretty_N.
  case_decide; [done|]. by apply pretty_N_go_not_data.
Qed.

(** An array has no property [data]. *)
Lemma indexed_no_data (l : list JValue) : indexed l !! "data" = None.
Proof.
  unfold indexed. apply not_elem_of_list_to_map_1.
  rewrite fmap_imap. intros Hin.
  apply elem_of_lookup_imap_1 in Hin as (i & v & Heq & _).
  simpl in Heq. symmetry in Heq. by apply pretty_nat_not_data in Heq.
Qed.

(** Every array sent as the list response is rejected with a type
    error: it passes the [typeof] guard and has no [data] to map. *)
Theorem getModels_array_rejected
    (extractInferenceParams extractModelLoadParams
       : gmap string JValue → gmap string JValue)
    (l : list JValue) :
  getModels extractInferenceParams extractModelLoadParams (inr (JArr l))
  = Rejected TypeError.
Proof.
  unfold getModels, queue_add, data_of, prop, get. simpl.
  by rewrite indexed_no_data.
Qed.

(** [getModels] resolves to a list exactly when [getModel] would
    resolve on every element of [data], and then to the results of
    [getModel] in the same order. *)
Theorem getModels_elementwise
    (extractInferenceParams extractModelLoadParams
       : gmap string JValue → gmap string JValue)
    (m : gmap string JValue) (l vs : list JValue) :
  m !! "data" = Some (JArr l) →
  getModels extractInferenceParams extractModelLoadParams (inr (JObj m))
  = Fulfilled vs
  ↔ Forall2
      (λ x v, getModel extractInferenceParams extractModelLoadParams (inr x)
              = Fulfilled v) l vs.
Proof.
  intros Hdata. unfold getModels, getModel, queue_add, data_of, prop. simpl.
  rewrite (get_lookup _ _ _ Hdata). simpl. apply mapThrowing_Forall2.
Qed.

Lemma getModels_elementwise_sample :
  getModels (pick sampleInferenceKeys) (pick sampleLoadKeys)
    (inr (JObj (<["data" := JArr [JObj sampleModel; JArr []]]> ∅)))
  = Fulfilled
      [ JObj (transformModel (pick sampleInferenceKeys) (pick sampleLoadKeys)
                sampleModel);
        JArrProps []
          (<["parameters" := JObj ∅]>
           (<["settings" := JObj ∅]>
           (<["metadata" := JObj (<["tags" := JArr []]>
                                  (<["size" := JNum 0]> ∅))]> ∅))) ].
Proof.
  apply (getModels_elementwise _ _ _ [JObj sampleModel; JArr []]).
  - apply lookup_insert_eq.
  - constructor; [reflexivity|].
    constructor; [vm_compute; reflexivity|constructor].
Defined.

(** One element of [data] that is [null], [undefined], a boolean, a
    number or a string makes the whole call reject, whatever the other
    elements are. *)
Theorem getModels_one_bad_element
    (extractInferenceParams extractModelLoadParams
       : gmap string JValue → gmap string JValue)
    (m : gmap string JValue) (l : list JValue) (x : JValue) :
  m !! "data" = Some (JArr l) →
  x ∈ l →
  typeof x ≠ "object" ∨ x = JNull →
  ∃ t, getModels extractInferenceParams extractModelLoadParams (inr (JObj m))
       = Rejected t.
Proof.
  intros Hdata Hin Hbad. unfold getModels, queue_add, data_of, prop. simpl.
  rewrite (get_lookup _ _ _ Hdata). simpl.
  apply (mapThrowing_rejected _ _ x TypeError); [done|].
  destruct Hbad as [Hty| ->]; [|done].
  destruct x; simpl in *; done.
Qed.

Lemma getModels_one_bad_element_sample :
  ∃ t, getModels (pick sampleInferenceKeys) (pick sampleLoadKeys)
         (inr (JObj (<["data" := JArr [JObj sampleModel; JNull;
                                        JObj sampleModelWithMetadata]]> ∅)))
       = Rejected t.
Proof.
  apply (getModels_one_bad_element _ _ _
           [JObj sampleModel; JNull; JObj sampleModelWithMetadata] JNull).
  - apply lookup_insert_eq.
  - by apply (list_elem_of_lookup_2 _ 1).
  - right. reflexivity.
Defined.

(** The three fields of a normalized array read as those of the record
    with the array's own properties. *)
Lemma transformModel_array_prop
    (extractInferenceParams extractModelLoadParams
       : gmap string JValue → gmap string JValue)
    (l : list JValue) (props : gmap string JValue) (k : string) :
  k ∈ normalizedFields →
  prop k (transformModel_array extractInferenceParams extractModelLoadParams
            l props)
  = get k (transformModel extractInferenceParams extractModelLoadParams
             (props ∪ indexed l)).
Proof.
  intros Hk. unfold prop, transformModel_array. simpl.
  apply list_elem_of_In in Hk. simpl in Hk.
  apply get_lookup, lookup_union_Some_l.
  destruct Hk as [<-|[<-|[<-|[]]]].
  - by rewrite lookup_insert_eq.
  - rewrite lookup_insert_ne, lookup_insert_eq by done. done.
  - rewrite !lookup_insert_ne, lookup_insert_eq by done. done.
Qed.

(** What [getModel] and [getModels] resolve to is normalized: a record
    (or an array, when the backend sends one) with [parameters],
    [settings] and [metadata], and a list of such values. *)
Theorem getModel_getModels_normalized
    (extractInferenceParams extractModelLoadParams
       : gmap string JValue → gmap string JValue)
    (r : TransportError + JValue) :
  (∀ v, getModel extractInferenceParams extractModelLoadParams r = Fulfilled v →
        normalized v) ∧
  (∀ vs, getModels extractInferenceParams extractModelLoadParams r
         = Fulfilled vs → Forall normalized vs).
Proof.
  assert (∀ m,
            ∃ (ps ss : gmap string JValue) (md : JValue),
              get "parameters"
                (transformModel extractInferenceParams extractModelLoadParams m)
              = JObj ps ∧
              get "settings"
                (transformModel extractInferenceParams extractModelLoadParams m)
              = JObj ss ∧
              get "metadata"
                (transformModel extractInferenceParams extractModelLoadParams m)
              = md ∧
              nullish md = false) as Hrecord.
  { intros m. eexists _, _, _.
    split; [apply get_lookup, transformModel_parameters|].
    split; [apply get_lookup, transformModel_settings|].
    split; [reflexivity|]. apply transformModel_metadata_present. }
  assert (∀ l props,
            normalized
              (transformModel_array extractInferenceParams
                 extractModelLoadParams l props)) as Harray.
  { intros l props. split; [done|]. split; [done|].
    rewrite !transformModel_array_prop
      by (by apply (bool_decide_unpack _)).
    apply Hrecord. }
  assert (∀ x v,
            transformModel_value extractInferenceParams extractModelLoadParams x
            = Fulfilled v → normalized v) as Hone.
  { intros x v Hx. destruct x; simpl in Hx; try discriminate;
      injection Hx as <-; [apply Harray| |apply Harray].
    split; [done|]. split; [done|]. apply Hrecord. }
  split.
  - intros v. unfold getModel, queue_add.
    destruct r as [e|x]; simpl; [discriminate|]. apply Hone.
  - intros vs. unfold getModels, queue_add.
    destruct r as [e|x]; simpl; [discriminate|].
    destruct (String.eqb (typeof x) "object"); [|by intros [= <-]].
    unfold data_of. destruct (nullish x); simpl; [discriminate|].
    unfold map_of. destruct (prop "data" x); try discriminate;
      intros Hall%mapThrowing_Forall2;
      induction Hall as [|y v ys vs' Hy _ IH]; constructor; eauto.
Qed.

(** A record comes back normalized, and so does an array sent in its
    place: the call resolves to the array with the three fields. *)
Lemma getModel_getModels_normalized_sample :
  normalized
    (JObj (transformModel (pick sampleInferenceKeys) (pick sampleLoadKeys)
             sampleModel)) ∧
  (getModel (pick sampleInferenceKeys) (pick sampleLoadKeys) (inr (JArr []))
   = Fulfilled
       (JArrProps []
          (<["parameters" := JObj ∅]>
           (<["settings" := JObj ∅]>
           (<["metadata" := JObj (<["tags" := JArr []]>
                                  (<["size" := JNum 0]> ∅))]> ∅)))) ∧
   normalized
     (JArrProps []
        (<["parameters" := JObj ∅]>
         (<["settings" := JObj ∅]>
         (<["metadata" := JObj (<["tags" := JArr []]>
                                (<["size" := JNum 0]> ∅))]> ∅))))).
Proof.
  split.
  - apply (proj1 (getModel_getModels_normalized
                    (pick sampleInferenceKeys) (pick sampleLoadKeys)
                    (inr (JObj sampleModel)))).
    reflexivity.
  - assert (getModel (pick sampleInferenceKeys) (pick sampleLoadKeys)
              (inr (JArr []))
            = Fulfilled
                (JArrProps []
                   (<["parameters" := JObj ∅]>
                    (<["settings" := JObj ∅]>
                    (<["metadata" := JObj (<["tags" := JArr []]>
                                           (<["size" := JNum 0]> ∅))]> ∅)))))
      as Hget by (vm_compute; reflexivity).
    split; [exact Hget|].
    exact (proj1 (getModel_getModels_normalized
                    (pick sampleInferenceKeys) (pick sampleLoadKeys)
                    (inr (JArr []))) _ Hget).
Defined.

(** An object without [data] is rejected: the guard does not look for
    the list. *)
Lemma getModels_no_data_sample :
  getModels (pick sampleInferenceKeys) (pick sampleLoadKeys)
    (inr (JObj (<["error" := JStr "busy"]> ∅)))
  = Rejected TypeError.
Proof.
  apply getModels_no_data. vm_compute. reflexivity.
Defined.

(** ** Errors of the other operations *)

(** [importModel] never rejects: a failed request resolves to
    [undefined], and the error goes to the console, once; a successful
    request writes nothing to the console. *)
Theorem importModel_never_rejects (r : TransportError + JValue) :
  ∃ v, (importModel r).1 = Fulfilled v ∧
       (∀ e, r = inl e →
             v = JUndefined ∧ (importModel r).2 = [Transport e]) ∧
       (∀ b, r = inr b → v = b ∧ (importModel r).2 = []).
Proof.
  destruct r as [e|b]; simpl.
  - exists JUndefined. split; [done|]. split.
    + by intros e' [= <-].
    + by intros b [=].
  - exists b. split; [done|]. split.
    + by intros e [=].
    + by intros b' [= <-].
Qed.

(** [getModelStatus] never rejects, and resolves to [true] exactly when
    the request succeeded. *)
Theorem getModelStatus_never_rejects {R : Type} (r : TransportError + R) :
  ∃ b, getModelStatus r = Fulfilled b ∧ (b = true ↔ ∃ x, r = inr x).
Proof.
  destruct r as [e|x]; simpl.
  - exists false. split; [done|]. split; [done|]. by intros [x [=]].
  - exists true. split; [done|]. split; [by exists x|done].
Qed.

(** The same failed request, seen through each operation.  When the
    error carries a JSON body, [pullModel] alone rejects with that
    body; [getModel], [getModels], [deleteModel], [updateModel],
    [cancelModelPull] and [healthz] reject with the transport error;
    [importModel] and [getModelStatus] do not reject. *)
Theorem failed_request_by_operation
    (extractInferenceParams extractModelLoadParams
       : gmap string JValue → gmap string JValue)
    (e : TransportError) (v : JValue) :
  response e = Some (Json v) → nullish v = false →
  pullModel (inl e) = Rejected (Value v) ∧
  getModel extractInferenceParams extractModelLoadParams (inl e)
  = Rejected (Transport e) ∧
  getModels extractInferenceParams extractModelLoadParams (inl e)
  = Rejected (Transport e) ∧
  deleteModel (inl e) = Rejected (Transport e) ∧
  updateModel (inl e) = Rejected (Transport e) ∧
  cancelModelPull (inl e) = Rejected (Transport e) ∧
  healthz (R := JValue) (inl e) = Rejected (Transport e) ∧
  (importModel (inl e)).1 = Fulfilled JUndefined ∧
  getModelStatus (R := JValue) (inl e) = Fulfilled false.
Proof.
  intros He Hv. split; [|by repeat split].
  unfold pullModel, queue_add, pull_catch, response_json.
  rewrite He. simpl. by rewrite Hv.
Qed.

Lemma failed_request_by_operation_sample :
  pullModel
    (inl {| name := "HTTPError";
            response := Some (Json (JObj (<["message" := JStr "busy"]> ∅))) |})
  = Rejected (Value (JObj (<["message" := JStr "busy"]> ∅))) ∧
  deleteModel
    (inl {| name := "HTTPError";
            response := Some (Json (JObj (<["message" := JStr "busy"]> ∅))) |})
  = Rejected
      (Transport
         {| name := "HTTPError";
            response := Some (Json (JObj (<["message" := JStr "busy"]> ∅))) |}).
Proof.
  destruct (failed_request_by_operation
              (pick sampleInferenceKeys) (pick sampleLoadKeys)
              {| name := "HTTPError";
                 response := Some (Json (JObj (<["message" := JStr "busy"]> ∅))) |}
              (JObj (<["message" := JStr "busy"]> ∅)) eq_refl eq_refl)
    as (Hpull & _ & _ & Hdel & _).
  split; [exact Hpull|exact Hdel].
Defined.

(** ** Requests *)

(** The URL strings are built by plain interpolation, and this is
    about the verb and the URL string that a call hands to the
    transport, before the transport resolves the string.  Two calls
    that hand over the same verb and the same string belong to the same
    operation, with one exception: deleting the model named [pull]
    hands over the string that cancels a pull. *)
Theorem requestOf_routes (API_URL : string) (op1 op2 : Operation)
    (r1 r2 : HttpRequest) :
  requestOf API_URL op1 = Some r1 →
  requestOf API_URL op2 = Some r2 →
  verb r1 = verb r2 →
  url r1 = url r2 →
  kind op1 = kind op2 ∨
  (op1 = DeleteModel "pull" ∧ kind op2 = "cancelModelPull") ∨
  (kind op1 = "cancelModelPull" ∧ op2 = DeleteModel "pull").
Proof.
  intros H1 H2 Hverb Hurl.
  destruct op1, op2; simpl in H1, H2;
    unfold updateModel_request in H1, H2;
    repeat match goal with
           | H : context [templateText ?v] |- _ =>
               destruct (templateText v); simpl in H
           end;
    simplify_eq/=; try (by left).
  - right; left. split; [|done]. f_equal. by injection Hurl.
  - right; right. split; [done|]. f_equal. by injection Hurl.
Qed.

Lemma requestOf_routes_sample :
  requestOf "http://127.0.0.1:39291" (DeleteModel "pull")
  = Some {| verb := DELETE; url := "http://127.0.0.1:39291/models/pull";
            json := None; retryLimit := None |} ∧
  requestOf "http://127.0.0.1:39291" (CancelModelPull "job-1")
  = Some {| verb := DELETE; url := "http://127.0.0.1:39291/models/pull";
            json := Some (JObj (<["taskId" := JStr "job-1"]> ∅));
            retryLimit := None |} ∧
  (kind (DeleteModel "pull") = kind (CancelModelPull "job-1") ∨
   (DeleteModel "pull" = DeleteModel "pull"
    ∧ kind (CancelModelPull "job-1") = "cancelModelPull") ∨
   (kind (DeleteModel "pull") = "cancelModelPull"
    ∧ CancelModelPull "job-1" = DeleteModel "pull")).
Proof.
  split; [reflexivity|]. split; [reflexivity|].
  apply (requestOf_routes "http://127.0.0.1:39291"
           (DeleteModel "pull") (CancelModelPull "job-1") _ _
           eq_refl eq_refl eq_refl eq_refl).
Defined.

(** The exception is real: the two calls differ only in their body. *)
Theorem deleteModel_pull_collides (API_URL task : string) :
  ∃ r1 r2,
    requestOf API_URL (DeleteModel "pull") = Some r1 ∧
    requestOf API_URL (CancelModelPull task) = Some r2 ∧
    verb r1 = verb r2 ∧ url r1 = url r2 ∧
    json r1 = None ∧ json r2 = Some (JObj (<["taskId" := JStr task]> ∅)).
Proof. eexists _, _. repeat split. Qed.

(** A record without an [id] is patched at the path of the model named
    [undefined], and its body has no [id]. *)
Theorem updateModel_without_id (API_URL : string)
    (model : gmap string JValue) :
  model !! "id" = None →
  ∃ r, requestOf API_URL (UpdateModel model) = Some r ∧
       verb r = PATCH ∧
       url r = API_URL +:+ "/v1/models/undefined" ∧
       json r = Some (JObj model) ∧
       model !! "id" = None ∧
       Some (url r)
       = url <$> requestOf API_URL
                   (UpdateModel (<["id" := JStr "undefined"]> model)).
Proof.
  intros Hid. simpl. unfold updateModel_request.
  rewrite (get_absent _ _ Hid), get_lookup with (v := JStr "undefined")
    by apply lookup_insert_eq.
  simpl. eexists. repeat split; done.
Qed.

Lemma updateModel_without_id_sample :
  ∃ r, requestOf "http://127.0.0.1:39291"
         (UpdateModel (<["name" := JStr "Tiny"]> ∅)) = Some r ∧
       url r = "http://127.0.0.1:39291/v1/models/undefined".
Proof.
  assert ((<["name" := JStr "Tiny"]> ∅ : gmap string JValue) !! "id" = None)
    as Hid by (vm_compute; reflexivity).
  destruct (updateModel_without_id "http://127.0.0.1:39291"
              (<["name" := JStr "Tiny"]> ∅) Hid)
    as (r & Hr & _ & Hurl & _).
  exists r. split; [exact Hr|exact Hurl].
Defined.

(** ** A stream of frames *)

Lemma onMessages_cons (f : Bridge.Frame) (fs : list Bridge.Frame) :
  onMessages (f :: fs) = Bridge.onMessage f ++ onMessages fs.
Proof. reflexivity. Qed.

(** Every frame gives one progress event, and the events follow the
    order of the frames: the task ids of the progress events are the
    task ids of the frames. *)
Theorem onMessages_progress_ids (frames : list Bridge.Frame) :
  progressIds (onMessages frames)
  = (λ f, Bridge.id (Bridge.task f)) <$> frames.
Proof.
  induction frames as [|f fs IH]; [done|].
  rewrite onMessages_cons. unfold progressIds in *.
  rewrite bind_app, IH, fmap_cons. unfold Bridge.onMessage.
  by destruct (String.eqb (Bridge.type f) Bridge.DownloadSuccess).
Qed.

(** The timers set over a stream are one models-list timer of 500 ms
    for each frame whose type is the string ["onFileDownloadSuccess"],
    and no other. *)
Theorem onMessages_timers (frames : list Bridge.Frame) :
  filter (λ e, isTimer e = true) (onMessages frames)
  = (λ _, Bridge.SetTimeout [(Bridge.OnModelsUpdate, Bridge.EmptyPayload)] 500)
      <$> filter (λ f, Bridge.type f = "onFileDownloadSuccess") frames.
Proof.
  induction frames as [|f fs IH]; [done|].
  rewrite onMessages_cons, filter_app, IH, filter_cons.
  unfold Bridge.onMessage, Bridge.DownloadSuccess.
  destruct (String.eqb_spec (Bridge.type f) "onFileDownloadSuccess") as [Heq|Hne].
  - rewrite decide_True by done. reflexivity.
  - rewrite decide_False by done. reflexivity.
Qed.

(** Over a stream whose frame types are all members of [DownloadTypes],
    the handler emits one named progress event per frame and never
    sets the models-list timer. *)
Theorem onMessages_member_types (frames : list Bridge.Frame) :
  Forall (λ f, is_Some (Bridge.DownloadTypes !! Bridge.type f)) frames →
  Forall2
    (λ f e, ∃ ev, Bridge.DownloadTypes !! Bridge.type f = Some ev ∧
                  e = Bridge.Emit (Bridge.Named ev)
                        (Bridge.ProgressPayload (Bridge.progressOf f)))
    frames (onMessages frames) ∧
  Forall (λ x, x.1.2 ≠ Bridge.OnModelsUpdate)
    (Bridge.timeline (onMessages frames)).
Proof.
  intros Hall.
  assert (∀ f, is_Some (Bridge.DownloadTypes !! Bridge.type f) →
               ∃ ev, Bridge.DownloadTypes !! Bridge.type f = Some ev ∧
                     Bridge.onMessage f
                     = [Bridge.Emit (Bridge.Named ev)
                          (Bridge.ProgressPayload (Bridge.progressOf f))])
    as Hone.
  { intros f [ev Hev]. exists ev. split; [done|].
    unfold Bridge.onMessage, Bridge.lookupType.
    by rewrite Hev, (DownloadTypes_member_not_success _ _ Hev). }
  induction Hall as [|f fs Hf _ [IH1 IH2]].
  - split; constructor.
  - destruct (Hone f Hf) as (ev & Hev & Hmsg).
    rewrite onMessages_cons, Hmsg. split.
    + constructor; [by exists ev|done].
    + unfold Bridge.timeline in *. rewrite bind_app.
      apply Forall_app. split; [|done].
      simpl. repeat constructor. simpl. discriminate.
Qed.

Lemma onMessages_member_types_sample :
  Forall2
    (λ f e, ∃ ev, Bridge.DownloadTypes !! Bridge.type f = Some ev ∧
                  e = Bridge.Emit (Bridge.Named ev)
                        (Bridge.ProgressPayload (Bridge.progressOf f)))
    [emptyFilesFrame; quarterFrame]
    (onMessages [emptyFilesFrame; quarterFrame]).
Proof.
  apply (onMessages_member_types [emptyFilesFrame; quarterFrame]).
  repeat constructor; by eexists.
Defined.

(** A progress event never carries a name outside the five download
    event names. *)
Theorem onMessages_names (frames : list Bridge.Frame) (ev : string)
    (p : Bridge.Payload) :
  Bridge.Emit (Bridge.Named ev) p ∈ onMessages frames →
  ev ∈ [ "onFileDownloadUpdate"; "onFileDownloadError";
         "onFileDownloadSuccess"; "onFileDownloadStopped";
         "onFileDownloadStarted" ].
Proof.
  unfold onMessages. intros (f & Hin & _)%list_elem_of_bind.
  unfold Bridge.onMessage in Hin.
  apply elem_of_cons in Hin as [Heq|Hin].
  - injection Heq as Hname _. unfold Bridge.lookupType in Hname.
    destruct (Bridge.DownloadTypes !! Bridge.type f) as [v|] eqn:Hv.
    + injection Hname as ->. apply DownloadTypes_lookup in Hv.
      apply list_elem_of_In in Hv. simpl in Hv.
      apply (bool_decide_unpack _).
      destruct Hv as [Hv|[Hv|[Hv|[Hv|[Hv|[]]]]]];
        injection Hv as _ <-; by vm_compute.
    + by destruct (bool_decide _).
  - destruct (String.eqb _ _); [|by apply elem_of_nil in Hin].
    apply list_elem_of_singleton in Hin. discriminate.
Qed.

Lemma onMessages_names_sample :
  "onFileDownloadUpdate"
  ∈ [ "onFileDownloadUpdate"; "onFileDownloadError";
      "onFileDownloadSuccess"; "onFileDownloadStopped";
      "onFileDownloadStarted" ].
Proof.
  apply (onMessages_names [quarterFrame] "onFileDownloadUpdate"
           (Bridge.ProgressPayload (Bridge.progressOf quarterFrame))).
  apply list_elem_of_here.
Defined.

(** ** The chat body *)

Lemma chatItems_cons (r : Chat.Row) (rows : list Chat.Row) :
  Chat.chatItems (r :: rows)
  = Chat.chatItems [r] ++ Chat.chatItems rows.
Proof. unfold Chat.chatItems. simpl. by rewrite app_nil_r. Qed.

Lemma errorMessages_cons (r : Chat.Row) (rows : list Chat.Row) :
  Chat.errorMessages (r :: rows)
  = Chat.errorMessages [r] ++ Chat.errorMessages rows.
Proof. unfold Chat.errorMessages. simpl. by rewrite app_nil_r. Qed.

Lemma chatItems_row (len index : nat) (m : Chat.ThreadMessage) :
  Chat.chatItems [Chat.row len index m] = if Chat.shown m then [m] else [].
Proof.
  unfold Chat.chatItems, Chat.row, Chat.shown. simpl.
  destruct (negb _ && _); destruct (_ && (index =? len - 1)); reflexivity.
Qed.

Lemma errorMessages_row (len index : nat) (m : Chat.ThreadMessage) :
  Chat.errorMessages [Chat.row len index m]
  = if (Chat.status_eqb (Chat.status m) Chat.Error
        || Chat.status_eqb (Chat.status m) Chat.Stopped)
       && (index =? len - 1)
    then [m] else [].
Proof.
  unfold Chat.errorMessages, Chat.row. simpl.
  destruct (negb _ && _); destruct (_ && (index =? len - 1)); reflexivity.
Qed.

Lemma chatItems_imap (len k : nat) (ms : list Chat.ThreadMessage) :
  Chat.chatItems (imap (λ i, Chat.row len (k + i)) ms)
  = filter (λ m, Chat.shown m = true) ms.
Proof.
  revert k. induction ms as [|m ms IH]; intros k; [done|].
  rewrite imap_cons, chatItems_cons, chatItems_row, filter_cons.
  rewrite (imap_ext _ (λ i, Chat.row len (S k + i))).
  - rewrite IH. destruct (decide (Chat.shown m = true)) as [Hs|Hs].
    + by rewrite Hs.
    + apply not_true_is_false in Hs. by rewrite Hs.
  - intros i x _. simpl. f_equal. lia.
Qed.

Lemma errorMessages_imap (len k : nat) (ms : list Chat.ThreadMessage) :
  k + length ms = len →
  Chat.errorMessages (imap (λ i, Chat.row len (k + i)) ms)
  = match last ms with
    | Some m =>
        if Chat.status_eqb (Chat.status m) Chat.Error
           || Chat.status_eqb (Chat.status m) Chat.Stopped
        then [m] else []
    | None => []
    end.
Proof.
  revert k. induction ms as [|m ms IH]; intros k Hlen; [done|].
  rewrite imap_cons, errorMessages_cons, errorMessages_row.
  rewrite (imap_ext _ (λ i, Chat.row len (S k + i)))
    by (intros i x _; simpl; f_equal; lia).
  simpl in Hlen. rewrite IH by lia.
  destruct ms as [|m' ms].
  - simpl in *. replace (k + 0 =? len - 1) with true
      by (symmetry; apply Nat.eqb_eq; lia).
    rewrite andb_true_r, app_nil_r. done.
  - replace (k + 0 =? len - 1) with false
      by (symmetry; apply Nat.eqb_neq; simpl in Hlen; lia).
    rewrite andb_false_r. done.
Qed.

Lemma keys_imap (len : nat) (ms : list Chat.ThreadMessage) :
  Chat.key <$> imap (Chat.row len) ms = Chat.id <$> ms.
Proof.
  rewrite fmap_imap, <- (imap_const Chat.id). by apply imap_ext.
Qed.

(** Which of the three views is rendered: the notice about models when
    none is downloaded, whatever the thread holds; the empty thread
    when there are models and no message; otherwise one row per
    message, keyed by the message ids in order. *)
Theorem ChatBody_view {M : Type} (messages : list Chat.ThreadMessage)
    (downloadedModels : list M) :
  (Chat.ChatBody messages downloadedModels = Chat.EmptyModel
   ↔ downloadedModels = []) ∧
  (Chat.ChatBody messages downloadedModels = Chat.EmptyThread
   ↔ downloadedModels ≠ [] ∧ messages = []) ∧
  (∀ rows, Chat.ChatBody messages downloadedModels = Chat.ScrollToBottom rows →
           downloadedModels ≠ [] ∧ messages ≠ [] ∧
           Chat.key <$> rows = Chat.id <$> messages).
Proof.
  unfold Chat.ChatBody.
  destruct downloadedModels as [|d ds]; simpl.
  { split; [done|]. split; [split; [done|by intros [? _]]|done]. }
  destruct messages as [|m ms]; simpl.
  { split; [done|]. split; [done|]. done. }
  split; [done|]. split; [split; [done|by intros [_ ?]]|].
  intros rows [= <-]. split; [done|]. split; [done|].
  apply (keys_imap (S (length ms)) (m :: ms)).
Qed.

(** The chat items rendered are the messages that have content and did
    not fail, in the order of the thread; a failed message is never
    rendered as a chat item. *)
Theorem ChatBody_chat_items {M : Type} (messages : list Chat.ThreadMessage)
    (downloadedModels : list M) (rows : list Chat.Row) :
  Chat.ChatBody messages downloadedModels = Chat.ScrollToBottom rows →
  Chat.chatItems rows = filter (λ m, Chat.shown m = true) messages ∧
  (∀ m, Chat.shown m = true
        ↔ Chat.status m ≠ Chat.Error ∧ Chat.content m ≠ []).
Proof.
  unfold Chat.ChatBody.
  destruct (length downloadedModels =? 0); [done|].
  destruct (length messages =? 0); [done|].
  intros [= <-]. split.
  - rewrite (imap_ext _ (λ i, Chat.row (length messages) (0 + i)) messages)
      by done.
    apply chatItems_imap.
  - intros m. unfold Chat.shown.
    rewrite andb_true_iff, negb_true_iff, Nat.ltb_lt.
    split; intros [Hs Hc]; split.
    + intros Heq. by rewrite Heq in Hs.
    + intros Heq. rewrite Heq in Hc. simpl in Hc. lia.
    + by destruct (Chat.status m).
    + destruct (Chat.content m); [done|simpl; lia].
Qed.

(** At most one error is rendered: the last message of the thread,
    when it failed or was stopped.  A failure further up the thread is
    not rendered. *)
Theorem ChatBody_error_messages {M : Type}
    (messages : list Chat.ThreadMessage) (downloadedModels : list M)
    (rows : list Chat.Row) :
  Chat.ChatBody messages downloadedModels = Chat.ScrollToBottom rows →
  Chat.errorMessages rows
  = match last messages with
    | Some m => if Chat.failed m then [m] else []
    | None => []
    end ∧
  (∀ m, Chat.failed m = true
        ↔ Chat.status m = Chat.Error ∨ Chat.status m = Chat.Stopped).
Proof.
  unfold Chat.ChatBody.
  destruct (length downloadedModels =? 0); [done|].
  destruct (length messages =? 0); [done|].
  intros [= <-]. split.
  - rewrite (imap_ext _ (λ i, Chat.row (length messages) (0 + i)) messages)
      by done.
    by rewrite errorMessages_imap.
  - intros m. unfold Chat.failed.
    destruct (Chat.status m); simpl; split;
      solve [done | by left | by right | by intros [?|?]].
Qed.

(** In [sampleThread] the failure in the middle is rendered neither as
    a chat item nor as an error; the stopped answer at the end is
    rendered as both. *)
Lemma ChatBody_chat_items_sample :
  Chat.chatItems (imap (Chat.row 3) sampleThread)
  = [sampleAnswer; sampleStopped].
Proof.
  rewrite (proj1 (ChatBody_chat_items sampleThread [sampleModel]
                    (imap (Chat.row 3) sampleThread) eq_refl)).
  reflexivity.
Defined.

Lemma ChatBody_error_messages_sample :
  Chat.errorMessages (imap (Chat.row 3) sampleThread) = [sampleStopped].
Proof.
  rewrite (proj1 (ChatBody_error_messages sampleThread [sampleModel]
                    (imap (Chat.row 3) sampleThread) eq_refl)).
  reflexivity.
Defined.
